(** * Cannon projectile simulator (src/app/page.js)

    A shallow embedding of the simulator's kinematics, trajectory preview,
    flight controller and orbit-camera controls, with the properties its
    specification states about them.

    Numbers.  A JavaScript number is modelled as a real number: [+], [-], [*],
    [/], [Math.sqrt], [Math.sin], [Math.cos], [Math.max], [Math.min] and
    [Math.PI] are the exact operations of [R].  IEEE-754 rounding, overflow
    and NaN are outside this model.  A statement that only follows the tests
    and assignments of the code holds of the doubles as well; a statement
    that rests on an exact identity of the reals says so ("read over the
    reals").  Module [Binary64] repeats the physics and the preview loop in
    binary64, to compute what the code really returns.

    Mutable references ([useRef]) and React state ([useState]) are fields of
    one explicit [State] record; an event handler is a function
    [State -> State].  A handler reads the state of the latest render. *)

From Stdlib Require Import Reals Lra Psatz List String Bool Arith Lia.
From Stdlib Require PrimFloat.
Import ListNotations.
Open Scope R_scope.

(** ** Numbers and comparisons *)

(** [a < b] and [a >= b] of the source, as booleans. *)
Definition ltb (a b : R) : bool := if Rlt_dec a b then true else false.
Definition geb (a b : R) : bool := if Rge_dec a b then true else false.
Definition gtb (a b : R) : bool := if Rgt_dec a b then true else false.

(** ** Constants (page.js, lines 54-56) *)

Definition GRAVITY : R := 9.81.
Definition MOUNT_HEIGHT : R := 1.5.
Definition BARREL_LENGTH : R := 3.

(** An object [{ x, y }]: the result of [calculateTrajectory], a camera
    rotation, a mouse position. *)
Module Point.
Record t := mk { x : R; y : R }.
End Point.

(** ** Section 5 of page.js: projectile physics *)

Definition calculateTrajectory (angle v0 time y0 : R) : Point.t :=
  let angleRad := (angle * PI) / 180 in
  let vx := v0 * cos angleRad in
  let vy := v0 * sin angleRad in
  let x := vx * time in
  let y := y0 + vy * time - 0.5 * GRAVITY * time * time in
  {| Point.x := x; Point.y := y |}.

Definition calculateFlightTime (angle v0 y0 : R) : R :=
  let angleRad := (angle * PI) / 180 in
  let vy := v0 * sin angleRad in
  let discriminant := vy * vy + 2 * GRAVITY * y0 in
  if ltb discriminant 0 then 0
  else (vy + sqrt discriminant) / GRAVITY.

Definition calculateRange (angle v0 y0 : R) : R :=
  let t_flight := calculateFlightTime angle v0 y0 in
  let angleRad := (angle * PI) / 180 in
  let vx := v0 * cos angleRad in
  vx * t_flight.

Definition calculateMaxHeight (angle v0 y0 : R) : R :=
  let angleRad := (angle * PI) / 180 in
  let vy := v0 * sin angleRad in
  y0 + (vy * vy) / (2 * GRAVITY).

(** The discriminant of [calculateFlightTime], named for the statements. *)
Definition discriminant (angle v0 y0 : R) : R :=
  let vy := v0 * sin ((angle * PI) / 180) in
  vy * vy + 2 * GRAVITY * y0.

(** ** Scene objects *)

(** [THREE.Vector3], with the two methods the code calls. *)
Module Vector3.
Record t := mk { x : R; y : R; z : R }.

(** [v.set(x, y, z)] *)
Definition set (_ : t) (x y z : R) : t := mk x y z.

(** [v.lerpVectors(v1, v2, alpha)]: [v1 + (v2 - v1) * alpha],
    component by component. *)
Definition lerpVectors (v1 v2 : t) (alpha : R) : t :=
  mk (x v1 + (x v2 - x v1) * alpha)
     (y v1 + (y v2 - y v1) * alpha)
     (z v1 + (z v2 - z v1) * alpha).
End Vector3.

(** The projectile mesh: the two properties the code writes. *)
Module Mesh.
Record t := mk { visible : bool; position : Vector3.t }.
End Mesh.

(** The camera: its position and the point it was last told to look at. *)
Module Camera.
Record t := mk { position : Vector3.t; lookAt : Vector3.t }.
End Camera.

(** [cameraControlsRef.current] (lines 46-52). *)
Module Controls.
Record t := mk {
  isDragging : bool;
  previousMousePosition : Point.t;
  rotation : Point.t;
  distance : R;
  target : Vector3.t
}.
End Controls.

(** A field of [projectileData]: a number, or the string [r.toFixed(d)],
    kept as the number it prints. *)
Inductive Value :=
| Number (r : R)
| toFixed (r : R) (digits : nat).

(** The React state [projectileData] (lines 28-34). *)
Module ProjectileData.
Record t := mk {
  range : Value;
  maxHeight : Value;
  timeOfFlight : Value;
  currentTime : Value;
  position : Value * Value     (* { x, y } *)
}.
End ProjectileData.

(** [projectileStateRef.current] (line 44). *)
Module ProjectileState.
Record t := mk { active : bool; time : R }.
End ProjectileState.

(** The variables an [animate] closure of [fireProjectile] has captured
    (lines 404-420): the angle, velocity and camera mode of the render in
    which the shot was fired, and the constants computed at launch. *)
Module Flight.
Record t := mk {
  cannonAngle : R;
  initialVelocity : R;
  cameraMode : string;
  y0 : R;
  startX : R;
  timeOfFlight : R;
  startTime : R
}.
End Flight.

(** The variables an [animate] closure of [setCameraPreset] has captured
    (lines 307-309). *)
Module Transition.
Record t := mk { startPos : Vector3.t; startTime : R }.
Definition duration : R := 500.
End Transition.

(** A callback handed to [requestAnimationFrame]. *)
Inductive Callback :=
| FlightAnimate (f : Flight.t)
| PresetAnimate (tr : Transition.t).

(** ** The component's state *)

Record State := mkState {
  cannonAngle : R;                          (* useState(45.0) *)
  initialVelocity : R;                      (* useState(20.0) *)
  isFiring : bool;
  cameraMode : string;
  showPanel : bool;
  projectileData : ProjectileData.t;
  cameraRef : option Camera.t;              (* None is a null ref *)
  projectileRef : option Mesh.t;
  trajectoryLineRef : option (list Vector3.t);   (* the line's points *)
  projectileStateRef : ProjectileState.t;
  cameraControlsRef : Controls.t;
  animationFrames : list Callback           (* requested, not yet run *)
}.

Definition setIsFiring (b : bool) (s : State) : State :=
  mkState (cannonAngle s) (initialVelocity s) b (cameraMode s) (showPanel s)
    (projectileData s) (cameraRef s) (projectileRef s) (trajectoryLineRef s)
    (projectileStateRef s) (cameraControlsRef s) (animationFrames s).

Definition setCameraMode (m : string) (s : State) : State :=
  mkState (cannonAngle s) (initialVelocity s) (isFiring s) m (showPanel s)
    (projectileData s) (cameraRef s) (projectileRef s) (trajectoryLineRef s)
    (projectileStateRef s) (cameraControlsRef s) (animationFrames s).

Definition setShowPanel (b : bool) (s : State) : State :=
  mkState (cannonAngle s) (initialVelocity s) (isFiring s) (cameraMode s) b
    (projectileData s) (cameraRef s) (projectileRef s) (trajectoryLineRef s)
    (projectileStateRef s) (cameraControlsRef s) (animationFrames s).

Definition setProjectileData (d : ProjectileData.t) (s : State) : State :=
  mkState (cannonAngle s) (initialVelocity s) (isFiring s) (cameraMode s)
    (showPanel s) d (cameraRef s) (projectileRef s) (trajectoryLineRef s)
    (projectileStateRef s) (cameraControlsRef s) (animationFrames s).

Definition setCamera (c : option Camera.t) (s : State) : State :=
  mkState (cannonAngle s) (initialVelocity s) (isFiring s) (cameraMode s)
    (showPanel s) (projectileData s) c (projectileRef s) (trajectoryLineRef s)
    (projectileStateRef s) (cameraControlsRef s) (animationFrames s).

Definition setProjectile (m : option Mesh.t) (s : State) : State :=
  mkState (cannonAngle s) (initialVelocity s) (isFiring s) (cameraMode s)
    (showPanel s) (projectileData s) (cameraRef s) m (trajectoryLineRef s)
    (projectileStateRef s) (cameraControlsRef s) (animationFrames s).

Definition setTrajectoryLine (l : option (list Vector3.t)) (s : State) : State :=
  mkState (cannonAngle s) (initialVelocity s) (isFiring s) (cameraMode s)
    (showPanel s) (projectileData s) (cameraRef s) (projectileRef s) l
    (projectileStateRef s) (cameraControlsRef s) (animationFrames s).

Definition setProjectileState (p : ProjectileState.t) (s : State) : State :=
  mkState (cannonAngle s) (initialVelocity s) (isFiring s) (cameraMode s)
    (showPanel s) (projectileData s) (cameraRef s) (projectileRef s)
    (trajectoryLineRef s) p (cameraControlsRef s) (animationFrames s).

Definition setControls (c : Controls.t) (s : State) : State :=
  mkState (cannonAngle s) (initialVelocity s) (isFiring s) (cameraMode s)
    (showPanel s) (projectileData s) (cameraRef s) (projectileRef s)
    (trajectoryLineRef s) (projectileStateRef s) c (animationFrames s).

Definition setAnimationFrames (q : list Callback) (s : State) : State :=
  mkState (cannonAngle s) (initialVelocity s) (isFiring s) (cameraMode s)
    (showPanel s) (projectileData s) (cameraRef s) (projectileRef s)
    (trajectoryLineRef s) (projectileStateRef s) (cameraControlsRef s) q.

(** [requestAnimationFrame(cb)] *)
Definition requestAnimationFrame (cb : Callback) (s : State) : State :=
  setAnimationFrames (animationFrames s ++ [cb]) s.

(** ** Section 2 of page.js: camera controls *)

(** The eye position the controls describe; the source writes this
    expression out at lines 260-262, 317-321 and 450-454. *)
Definition orbit (controls : Controls.t) : Vector3.t :=
  let x := Point.x (Controls.rotation controls) in
  let y := Point.y (Controls.rotation controls) in
  let dist := Controls.distance controls in
  let target := Controls.target controls in
  Vector3.mk (Vector3.x target + dist * sin y * cos x)
             (Vector3.y target + dist * sin x)
             (Vector3.z target + dist * cos y * cos x).

Definition updateCameraPosition (s : State) : State :=
  match cameraRef s with
  | None => s
  | Some camera =>
      let controls := cameraControlsRef s in
      setCamera (Some (Camera.mk (orbit controls) (Controls.target controls))) s
  end.

Definition handleMouseDown (clientX clientY : R) (s : State) : State :=
  let controls := cameraControlsRef s in
  setControls
    (Controls.mk true (Point.mk clientX clientY) (Controls.rotation controls)
       (Controls.distance controls) (Controls.target controls)) s.

Definition handleMouseMove (clientX clientY : R) (s : State) : State :=
  let controls := cameraControlsRef s in
  if negb (Controls.isDragging controls) then s
  else
    let deltaX := clientX - Point.x (Controls.previousMousePosition controls) in
    let deltaY := clientY - Point.y (Controls.previousMousePosition controls) in
    let rotation_y := Point.y (Controls.rotation controls) + deltaX * 0.005 in
    let rotation_x := Point.x (Controls.rotation controls) + deltaY * 0.005 in
    let rotation_x := Rmax 0.1 (Rmin (PI / 2 - 0.1) rotation_x) in
    updateCameraPosition
      (setControls
         (Controls.mk (Controls.isDragging controls) (Point.mk clientX clientY)
            (Point.mk rotation_x rotation_y)
            (Controls.distance controls) (Controls.target controls)) s).

Definition handleMouseUp (s : State) : State :=
  let controls := cameraControlsRef s in
  setControls
    (Controls.mk false (Controls.previousMousePosition controls)
       (Controls.rotation controls) (Controls.distance controls)
       (Controls.target controls)) s.

Definition handleWheel (deltaY : R) (s : State) : State :=
  let controls := cameraControlsRef s in
  let distance := Controls.distance controls + deltaY * 0.05 in
  let distance := Rmax 5 (Rmin 100 distance) in
  updateCameraPosition
    (setControls
       (Controls.mk (Controls.isDragging controls)
          (Controls.previousMousePosition controls)
          (Controls.rotation controls) distance (Controls.target controls)) s).

(** ** Section 3 of page.js: camera presets *)

(** The [switch (mode)] of [setCameraPreset]; a mode that matches no case
    leaves the controls as they are. *)
Definition presetControls (mode : string) (controls : Controls.t) : Controls.t :=
  let preset rotation distance target :=
    Controls.mk (Controls.isDragging controls)
      (Controls.previousMousePosition controls) rotation distance target in
  let target := Controls.target controls in
  if (mode =? "overview")%string then
    preset (Point.mk 0.3 0.8) 30 (Vector3.set target 0 5 0)
  else if (mode =? "follow")%string then
    preset (Point.mk 0.2 0) 15 (Vector3.set target 10 5 0)
  else if (mode =? "side")%string then
    preset (Point.mk 0.3 (PI / 2)) 35 (Vector3.set target 0 5 0)
  else if (mode =? "closeup")%string then
    preset (Point.mk 0.2 0.5) 8 (Vector3.set target 0 3 0)
  else controls.

(** The [animate] closure of [setCameraPreset] (lines 310-327), run when the
    clock reads [now]. *)
Definition presetAnimate (tr : Transition.t) (now : R) (s : State) : State :=
  let elapsed := now - Transition.startTime tr in
  let progress := Rmin (elapsed / Transition.duration) 1 in
  let eased := 1 - (1 - progress) ^ 3 in
  match cameraRef s with
  | None => s                     (* TypeError: the callback stops *)
  | Some camera =>
      let controls := cameraControlsRef s in
      let targetPos := orbit controls in
      let s :=
        setCamera
          (Some (Camera.mk
                   (Vector3.lerpVectors (Transition.startPos tr) targetPos eased)
                   (Controls.target controls))) s in
      if ltb progress 1 then requestAnimationFrame (PresetAnimate tr) s else s
  end.

(** [setCameraPreset(mode)]; [now0] and [now1] are the two readings of
    [Date.now()], at line 308 and in the first call of [animate]. *)
Definition setCameraPreset (mode : string) (now0 now1 : R) (s : State) : State :=
  let s := setCameraMode mode s in
  let s := setControls (presetControls mode (cameraControlsRef s)) s in
  match cameraRef s with
  | None => s                     (* TypeError at line 307 *)
  | Some camera =>
      let startPos := Camera.position camera in
      let startTime := now0 in
      presetAnimate (Transition.mk startPos startTime) now1 s
  end.

(** ** Trajectory preview (lines 376-392) *)

(** The array [points] after the loop of [updateTrajectoryPreview]. *)
Definition previewPoints (cannonAngle initialVelocity : R) : list Vector3.t :=
  let angleRad := (cannonAngle * PI) / 180 in
  let y0 := MOUNT_HEIGHT + BARREL_LENGTH * sin angleRad in
  let timeOfFlight := calculateFlightTime cannonAngle initialVelocity y0 in
  let steps := 100%nat in
  let muzzleX := BARREL_LENGTH * cos angleRad in
  fold_left
    (fun points i =>
       let t := (INR i / INR steps) * timeOfFlight in
       let pos := calculateTrajectory cannonAngle initialVelocity t y0 in
       if geb (Point.y pos) 0 then
         points ++ [Vector3.mk (muzzleX + Point.x pos) (Point.y pos) 0]
       else points)
    (seq 0 (S steps)) [].

Definition updateTrajectoryPreview (s : State) : State :=
  match trajectoryLineRef s with
  | None => s
  | Some _ =>
      setTrajectoryLine
        (Some (previewPoints (cannonAngle s) (initialVelocity s))) s
  end.

(** ** Section 6 of page.js: firing *)

(** The [animate] closure of [fireProjectile] (lines 421-463), run when the
    clock reads [now].  A write through a null ref is a TypeError: the
    callback stops there and keeps what it has written so far. *)
Definition animate (f : Flight.t) (now : R) (s : State) : State :=
  if negb (ProjectileState.active (projectileStateRef s)) then s
  else
    let elapsed := (now - Flight.startTime f) / 1000 in
    let pos :=
      calculateTrajectory (Flight.cannonAngle f) (Flight.initialVelocity f)
        elapsed (Flight.y0 f) in
    if ltb (Point.y pos) 0 || gtb elapsed (Flight.timeOfFlight f + 0.1) then
      (* Projectile landed *)
      let s :=
        setProjectileState
          (ProjectileState.mk false (ProjectileState.time (projectileStateRef s)))
          s in
      match projectileRef s with
      | None => s
      | Some projectile =>
          let s :=
            setProjectile
              (Some (Mesh.mk false (Mesh.position projectile))) s in
          let s := setIsFiring false s in
          setShowPanel true s
      end
    else
      let worldX := Flight.startX f + Point.x pos in
      let worldY := Point.y pos in
      match projectileRef s with
      | None => s
      | Some projectile =>
          let s :=
            setProjectile
              (Some (Mesh.mk (Mesh.visible projectile)
                       (Vector3.mk worldX worldY 0))) s in
          let publish (s : State) : State :=
            let prev := projectileData s in
            let s :=
              setProjectileData
                (ProjectileData.mk
                   (ProjectileData.range prev)
                   (ProjectileData.maxHeight prev)
                   (ProjectileData.timeOfFlight prev)
                   (toFixed elapsed 2)
                   (toFixed worldX 2, toFixed worldY 2)) s in
            requestAnimationFrame (FlightAnimate f) s in
          if (Flight.cameraMode f =? "follow")%string then
            let controls := cameraControlsRef s in
            let controls :=
              Controls.mk (Controls.isDragging controls)
                (Controls.previousMousePosition controls)
                (Controls.rotation controls) (Controls.distance controls)
                (Vector3.set (Controls.target controls) worldX worldY 0) in
            let s := setControls controls s in
            match cameraRef s with
            | None => s
            | Some camera =>
                publish
                  (setCamera
                     (Some (Camera.mk (orbit controls)
                              (Controls.target controls))) s)
            end
          else publish s
      end.

(** [fireProjectile()]; [now0] and [now1] are the two readings of
    [Date.now()], at line 420 and in the first call of [animate]. *)
Definition fireProjectile (now0 now1 : R) (s : State) : State :=
  (* close the popup in mobile *)
  let s := setShowPanel false s in
  match isFiring s, projectileRef s with
  | true, _ | false, None => s
  | false, Some projectile =>
      let s := setIsFiring true s in
      let s :=
        setProjectile (Some (Mesh.mk true (Mesh.position projectile))) s in
      let angleRad := (cannonAngle s * PI) / 180 in
      let y0 := MOUNT_HEIGHT + BARREL_LENGTH * sin angleRad in
      let startX := BARREL_LENGTH * cos angleRad in
      let startY := y0 in
      let timeOfFlight :=
        calculateFlightTime (cannonAngle s) (initialVelocity s) y0 in
      let range := calculateRange (cannonAngle s) (initialVelocity s) y0 in
      let maxHeight :=
        calculateMaxHeight (cannonAngle s) (initialVelocity s) y0 in
      let s :=
        setProjectileData
          (ProjectileData.mk (toFixed range 2) (toFixed maxHeight 2)
             (toFixed timeOfFlight 2) (Number 0)
             (toFixed startX 2, toFixed startY 2)) s in
      let s := setProjectileState (ProjectileState.mk true 0) s in
      (* Animate projectile *)
      let startTime := now0 in
      animate
        (Flight.mk (cannonAngle s) (initialVelocity s) (cameraMode s)
           y0 startX timeOfFlight startTime)
        now1 s
  end.

(** ** The panel buttons (lines 521, 536 and 707) *)

Definition togglePanel (s : State) : State :=
  setShowPanel (negb (showPanel s)) s.

Definition closePanel (s : State) : State := setShowPanel false s.

(** ** Events *)

(** The browser runs the oldest requested animation callback, when the
    clock reads [now]. *)
Definition animationFrame (now : R) (s : State) : State :=
  match animationFrames s with
  | [] => s
  | cb :: rest =>
      let s := setAnimationFrames rest s in
      match cb with
      | FlightAnimate f => animate f now s
      | PresetAnimate tr => presetAnimate tr now s
      end
  end.

(** What can happen to the mounted component: the pointer and wheel events
    of the canvas, the preset buttons, the fire button, the panel buttons and
    an animation frame. *)
Inductive Event :=
| MouseDown (clientX clientY : R)
| MouseMove (clientX clientY : R)
| MouseUp
| Wheel (deltaY : R)
| CameraPreset (mode : string) (now0 now1 : R)
| Fire (now0 now1 : R)
| TogglePanel
| ClosePanel
| AnimationFrame (now : R).

Definition step (s : State) (e : Event) : State :=
  match e with
  | MouseDown clientX clientY => handleMouseDown clientX clientY s
  | MouseMove clientX clientY => handleMouseMove clientX clientY s
  | MouseUp => handleMouseUp s
  | Wheel deltaY => handleWheel deltaY s
  | CameraPreset mode now0 now1 => setCameraPreset mode now0 now1 s
  | Fire now0 now1 => fireProjectile now0 now1 s
  | TogglePanel => togglePanel s
  | ClosePanel => closePanel s
  | AnimationFrame now => animationFrame now s
  end.

Definition run (s : State) (events : list Event) : State :=
  fold_left step events s.

(** ** The state after mounting *)

(** The first render (lines 22-52): the refs are still null. *)
Definition firstRender : State :=
  {| cannonAngle := 45;
     initialVelocity := 20;
     isFiring := false;
     cameraMode := "overview";
     showPanel := false;
     projectileData :=
       ProjectileData.mk (Number 0) (Number 0) (Number 0) (Number 0)
         (Number 0, Number 0);
     cameraRef := None;
     projectileRef := None;
     trajectoryLineRef := None;
     projectileStateRef := ProjectileState.mk false 0;
     cameraControlsRef :=
       Controls.mk false (Point.mk 0 0) (Point.mk 0.3 0.8) 30
         (Vector3.mk 0 5 0);
     animationFrames := [] |}.

(** The scene-setup effect (lines 61-219) fills the refs: the camera at
    (15, 15, 25) looking at (0, 5, 0), the hidden projectile at the origin,
    the empty trajectory line. *)
Definition sceneSetup (s : State) : State :=
  let s :=
    setCamera (Some (Camera.mk (Vector3.mk 15 15 25) (Vector3.mk 0 5 0))) s in
  let s := setProjectile (Some (Mesh.mk false (Vector3.mk 0 0 0))) s in
  setTrajectoryLine (Some []) s.

(** After the effects of the first render: scene setup, then the preview
    effect of section 4 (lines 334-341). *)
Definition initialState : State :=
  updateTrajectoryPreview (sceneSetup firstRender).

(** ** Notions used in the statements *)

(** The zoom distance of a state, and the invariant the clamp maintains. *)
Definition zoom (s : State) : R := Controls.distance (cameraControlsRef s).

Definition zoomInRange (s : State) : Prop := 5 <= zoom s <= 100.

(** The time since launch, in seconds, that [animate] computes at line 423,
    and the position it passes on (lines 424-429). *)
Definition elapsedAt (f : Flight.t) (now : R) : R :=
  (now - Flight.startTime f) / 1000.

Definition positionAt (f : Flight.t) (now : R) : Point.t :=
  calculateTrajectory (Flight.cannonAngle f) (Flight.initialVelocity f)
    (elapsedAt f now) (Flight.y0 f).

(** The end of a flight, as line 431-435 writes it. *)
Definition flightEnded (s : State) : Prop :=
  ProjectileState.active (projectileStateRef s) = false /\
  option_map Mesh.visible (projectileRef s) = Some false /\
  isFiring s = false /\
  showPanel s = true.

(** A flight under way, written out: the shot of the initial state fired when
    the clock read 0, after its first tick. *)
Definition exampleFlight : Flight.t :=
  Flight.mk 45 20 "overview"
    (MOUNT_HEIGHT + BARREL_LENGTH * sin ((45 * PI) / 180))
    (BARREL_LENGTH * cos ((45 * PI) / 180))
    (calculateFlightTime 45 20
       (MOUNT_HEIGHT + BARREL_LENGTH * sin ((45 * PI) / 180)))
    0.

Definition exampleFlying : State :=
  {| cannonAngle := 45;
     initialVelocity := 20;
     isFiring := true;
     cameraMode := "overview";
     showPanel := true;
     projectileData :=
       ProjectileData.mk (Number 0) (Number 0) (Number 0) (Number 0)
         (Number 0, Number 0);
     cameraRef := Some (Camera.mk (Vector3.mk 15 15 25) (Vector3.mk 0 5 0));
     projectileRef := Some (Mesh.mk true (Vector3.mk 0 0 0));
     trajectoryLineRef := Some [];
     projectileStateRef := ProjectileState.mk true 0;
     cameraControlsRef :=
       Controls.mk false (Point.mk 0 0) (Point.mk 0.3 0.8) 30
         (Vector3.mk 0 5 0);
     animationFrames := [FlightAnimate exampleFlight] |}.

(** ** The fire button (lines 621-631)

    [onClick={fireProjectile}] with [disabled={isFiring}]: a disabled button
    dispatches no click, so a press while a flight is in progress never
    reaches the handler. *)
Definition fireButton (now0 now1 : R) (s : State) : State :=
  if isFiring s then s else fireProjectile now0 now1 s.

(** * Further definitions *)

(** The sample the loop of [updateTrajectoryPreview] computes at step [i]
    (lines 385-388). *)
Definition previewSample (cannonAngle initialVelocity : R) (i : nat) : Vector3.t :=
  let angleRad := (cannonAngle * PI) / 180 in
  let y0 := MOUNT_HEIGHT + BARREL_LENGTH * sin angleRad in
  let timeOfFlight := calculateFlightTime cannonAngle initialVelocity y0 in
  let steps := 100%nat in
  let muzzleX := BARREL_LENGTH * cos angleRad in
  let t := (INR i / INR steps) * timeOfFlight in
  let pos := calculateTrajectory cannonAngle initialVelocity t y0 in
  Vector3.mk (muzzleX + Point.x pos) (Point.y pos) 0.

(** The camera angles of a state: [rotation.x] is the elevation,
    [rotation.y] the azimuth. *)
Definition elevation (s : State) : R :=
  Point.x (Controls.rotation (cameraControlsRef s)).

Definition azimuth (s : State) : R :=
  Point.y (Controls.rotation (cameraControlsRef s)).

Definition elevationInRange (s : State) : Prop :=
  0.1 <= elevation s <= PI / 2 - 0.1.

(** The camera is where the controls put it: at the orbit position they
    describe, looking at the target. *)
Definition cameraOnOrbit (s : State) : Prop :=
  exists camera,
    cameraRef s = Some camera /\
    Camera.position camera = orbit (cameraControlsRef s) /\
    Camera.lookAt camera = Controls.target (cameraControlsRef s).

(** Pointer moves, as events. *)
Definition mouseMoves (points : list Point.t) : list Event :=
  map (fun p => MouseMove (Point.x p) (Point.y p)) points.

(** The closure [fireProjectile] builds at lines 404-421 when the clock
    reads [now0]: the snapshot of the sliders and of the camera mode, and the
    launch constants. *)
Definition launch (s : State) (now0 : R) : Flight.t :=
  let angleRad := (cannonAngle s * PI) / 180 in
  let y0 := MOUNT_HEIGHT + BARREL_LENGTH * sin angleRad in
  let startX := BARREL_LENGTH * cos angleRad in
  let timeOfFlight :=
    calculateFlightTime (cannonAngle s) (initialVelocity s) y0 in
  Flight.mk (cannonAngle s) (initialVelocity s) (cameraMode s)
    y0 startX timeOfFlight now0.

(** The state [fireProjectile] has written when it calls [animate]
    (lines 399-418), fired from idle with the projectile mesh in place. *)
Definition armed (s : State) (projectile : Mesh.t) : State :=
  let y0 := Flight.y0 (launch s 0) in
  setProjectileState (ProjectileState.mk true 0)
    (setProjectileData
       (ProjectileData.mk
          (toFixed (calculateRange (cannonAngle s) (initialVelocity s) y0) 2)
          (toFixed (calculateMaxHeight (cannonAngle s) (initialVelocity s) y0) 2)
          (toFixed (calculateFlightTime (cannonAngle s) (initialVelocity s) y0) 2)
          (Number 0)
          (toFixed (Flight.startX (launch s 0)) 2, toFixed y0 2))
       (setProjectile (Some (Mesh.mk true (Mesh.position projectile)))
          (setIsFiring true (setShowPanel false s)))).

(** The point [animate] writes to the mesh (lines 438-442). *)
Definition worldAt (f : Flight.t) (now : R) : Vector3.t :=
  Vector3.mk (Flight.startX f + Point.x (positionAt f now))
    (Point.y (positionAt f now)) 0.

(** How many flight callbacks are waiting for a frame. *)
Fixpoint flightsPending (q : list Callback) : nat :=
  match q with
  | [] => 0
  | FlightAnimate _ :: q => S (flightsPending q)
  | PresetAnimate _ :: q => flightsPending q
  end.

(** The flags of a flight agree: the projectile is shown, [active] is set
    and one flight callback is pending exactly while [isFiring] holds. *)
Definition flightConsistent (s : State) : Prop :=
  cameraRef s <> None /\
  option_map Mesh.visible (projectileRef s) = Some (isFiring s) /\
  ProjectileState.active (projectileStateRef s) = isFiring s /\
  flightsPending (animationFrames s) = if isFiring s then 1%nat else 0%nat.

Definition projectileAboveGround (s : State) : Prop :=
  match projectileRef s with
  | Some projectile => 0 <= Vector3.y (Mesh.position projectile)
  | None => True
  end.

(** ** The number inputs of the panel (lines 569-584 and 601-616) *)

Definition setCannonAngle (angle : R) (s : State) : State :=
  mkState angle (initialVelocity s) (isFiring s) (cameraMode s) (showPanel s)
    (projectileData s) (cameraRef s) (projectileRef s) (trajectoryLineRef s)
    (projectileStateRef s) (cameraControlsRef s) (animationFrames s).

Definition setInitialVelocity (v0 : R) (s : State) : State :=
  mkState (cannonAngle s) v0 (isFiring s) (cameraMode s) (showPanel s)
    (projectileData s) (cameraRef s) (projectileRef s) (trajectoryLineRef s)
    (projectileStateRef s) (cameraControlsRef s) (animationFrames s).

(** [a <= b] of the source, as a boolean. *)
Definition lteb (a b : R) : bool := if Rle_dec a b then true else false.

(** The [onChange] handler of the angle's number input; [val] is
    [Number(e.target.value)], with [None] for NaN. *)
Definition handleAngleNumberInput (val : option R) (s : State) : State :=
  match val with
  | Some val => if geb val 15 && lteb val 90 then setCannonAngle val s else s
  | None => s
  end.

(** The [onChange] handler of the velocity's number input. *)
Definition handleVelocityNumberInput (val : option R) (s : State) : State :=
  match val with
  | Some val => if geb val 10 && lteb val 100 then setInitialVelocity val s else s
  | None => s
  end.

(** A shot fired in follow mode, written out, for the instances below. *)
Definition exampleFollowFlight : Flight.t :=
  Flight.mk 45 20 "follow" 1 0 10 0.

(** The landing test of [animate] (line 430), on the numbers it computes. *)
Definition landingTest (f : Flight.t) (now : R) : bool :=
  ltb (Point.y (positionAt f now)) 0
  || gtb (elapsedAt f now) (Flight.timeOfFlight f + 0.1).

(** * The same arithmetic in binary64

    The code computes with IEEE-754 doubles.  This module repeats the physics
    and the preview loop with Rocq's primitive binary64 floats, operation for
    operation and in the source's order of evaluation, so that the results
    the code really produces can be computed.  [Math.sin] and [Math.cos] are
    left to the JavaScript engine by the language standard: they are the two
    fields of an [Engine], and a statement is made for every engine that
    returns the correctly rounded values at the angles it uses. *)
Module Binary64.

Import PrimFloat.

Local Set Warnings "-inexact-float".

Record Engine := mkEngine {
  Math_sin : float -> float;
  Math_cos : float -> float
}.

Definition Math_PI : float := 0x1.921fb54442d18p+1%float.
Definition GRAVITY : float := 9.81%float.
Definition MOUNT_HEIGHT : float := 1.5%float.
Definition BARREL_LENGTH : float := 3%float.

(** Lines 346-354; the result is the pair (x, y). *)
Definition calculateTrajectory (M : Engine) (angle v0 time y0 : float)
  : float * float :=
  let angleRad := ((angle * Math_PI) / 180)%float in
  let vx := (v0 * Math_cos M angleRad)%float in
  let vy := (v0 * Math_sin M angleRad)%float in
  let x := (vx * time)%float in
  let y := (y0 + vy * time - 0.5 * GRAVITY * time * time)%float in
  (x, y).

(** Lines 355-361. *)
Definition calculateFlightTime (M : Engine) (angle v0 y0 : float) : float :=
  let angleRad := ((angle * Math_PI) / 180)%float in
  let vy := (v0 * Math_sin M angleRad)%float in
  let discriminant := (vy * vy + 2 * GRAVITY * y0)%float in
  if (discriminant <? 0)%float then 0%float
  else ((vy + PrimFloat.sqrt discriminant) / GRAVITY)%float.

(** Lines 362-367. *)
Definition calculateRange (M : Engine) (angle v0 y0 : float) : float :=
  let t_flight := calculateFlightTime M angle v0 y0 in
  let angleRad := ((angle * Math_PI) / 180)%float in
  let vx := (v0 * Math_cos M angleRad)%float in
  (vx * t_flight)%float.

(** Lines 368-372. *)
Definition calculateMaxHeight (M : Engine) (angle v0 y0 : float) : float :=
  let angleRad := ((angle * Math_PI) / 180)%float in
  let vy := (v0 * Math_sin M angleRad)%float in
  (y0 + (vy * vy) / (2 * GRAVITY))%float.

(** The loop counter [i] as a double. *)
Fixpoint Number (i : nat) : float :=
  match i with
  | O => 0%float
  | S i => (Number i + 1)%float
  end.

(** The array [points] after the loop of lines 376-392; a point is the
    triple (x, y, z). *)
Definition previewPoints (M : Engine) (cannonAngle initialVelocity : float)
  : list (float * float * float) :=
  let angleRad := ((cannonAngle * Math_PI) / 180)%float in
  let y0 := (MOUNT_HEIGHT + BARREL_LENGTH * Math_sin M angleRad)%float in
  let timeOfFlight := calculateFlightTime M cannonAngle initialVelocity y0 in
  let steps := 100%nat in
  let muzzleX := (BARREL_LENGTH * Math_cos M angleRad)%float in
  fold_left
    (fun points i =>
       let t := ((Number i / Number steps) * timeOfFlight)%float in
       let pos := calculateTrajectory M cannonAngle initialVelocity t y0 in
       if (0 <=? snd pos)%float then
         points ++ [((muzzleX + fst pos)%float, snd pos, 0%float)]
       else points)
    (seq 0 (S steps)) [].

(** What every browser's engine returns at 90 and at 45 degrees: the doubles
    nearest to the sine and cosine of the argument. *)
Definition roundsCorrectly (M : Engine) : Prop :=
  Math_sin M ((90 * Math_PI) / 180)%float = 1%float /\
  Math_cos M ((90 * Math_PI) / 180)%float = 6.123233995736766e-17%float /\
  Math_sin M ((45 * Math_PI) / 180)%float = 0.7071067811865475%float /\
  Math_cos M ((45 * Math_PI) / 180)%float = 0.7071067811865476%float.

(** An engine that does so; away from the two angles its values are never
    used. *)
Definition tableEngine : Engine :=
  mkEngine
    (fun x =>
       if (x =? (90 * Math_PI) / 180)%float then 1%float
       else if (x =? (45 * Math_PI) / 180)%float then 0.7071067811865475%float
       else nan)
    (fun x =>
       if (x =? (90 * Math_PI) / 180)%float then 6.123233995736766e-17%float
       else if (x =? (45 * Math_PI) / 180)%float then 0.7071067811865476%float
       else nan).

End Binary64.

(** * Properties *)

(** ** Comparisons *)

Lemma ltb_true a b : ltb a b = true <-> a < b.
Proof. unfold ltb; destruct (Rlt_dec a b); split; intros; try easy. Qed.

Lemma ltb_false a b : ltb a b = false <-> b <= a.
Proof.
  unfold ltb; destruct (Rlt_dec a b); split; intros; try easy; lra.
Qed.

Lemma geb_true a b : geb a b = true <-> b <= a.
Proof.
  unfold geb; destruct (Rge_dec a b); split; intros; try easy; lra.
Qed.

Lemma geb_false a b : geb a b = false <-> a < b.
Proof.
  unfold geb; destruct (Rge_dec a b); split; intros; try easy; lra.
Qed.

Lemma gtb_true a b : gtb a b = true <-> b < a.
Proof.
  unfold gtb; destruct (Rgt_dec a b); split; intros; try easy; lra.
Qed.

Lemma gtb_false a b : gtb a b = false <-> a <= b.
Proof.
  unfold gtb; destruct (Rgt_dec a b); split; intros; try easy; lra.
Qed.

(** *** Facts about the launch angle *)

Lemma GRAVITY_pos : 0 < GRAVITY.
Proof. unfold GRAVITY; lra. Qed.

Lemma angleRad_range angle :
  15 <= angle <= 90 -> 0 < (angle * PI) / 180 <= PI / 2.
Proof.
  intros H; pose proof PI_RGT_0; split; nra.
Qed.

Lemma sin_angle_nonneg angle :
  15 <= angle <= 90 -> 0 <= sin ((angle * PI) / 180).
Proof.
  intros H; pose proof (angleRad_range angle H); pose proof PI_RGT_0.
  apply sin_ge_0; lra.
Qed.

Lemma cos_angle_nonneg angle :
  15 <= angle <= 90 -> 0 <= cos ((angle * PI) / 180).
Proof.
  intros H; pose proof (angleRad_range angle H); pose proof PI_RGT_0.
  apply cos_ge_0; lra.
Qed.

Lemma angle45 : (45 * PI) / 180 = PI / 4.
Proof. field. Qed.

Lemma sqrt2_bounds : 1.41421 < sqrt 2 < 1.41422.
Proof.
  assert (H0 : 0 <= sqrt 2) by apply sqrt_pos.
  assert (H1 : sqrt 2 * sqrt 2 = 2) by (apply sqrt_sqrt; lra).
  split; nra.
Qed.

Lemma sin45 : sin ((45 * PI) / 180) = sqrt 2 / 2.
Proof.
  rewrite angle45, sin_PI4.
  assert (H1 : sqrt 2 * sqrt 2 = 2) by (apply sqrt_sqrt; lra).
  pose proof sqrt2_bounds.
  field_simplify_eq; lra.
Qed.

Lemma cos45 : cos ((45 * PI) / 180) = sqrt 2 / 2.
Proof.
  rewrite angle45, cos_PI4.
  assert (H1 : sqrt 2 * sqrt 2 = 2) by (apply sqrt_sqrt; lra).
  pose proof sqrt2_bounds.
  field_simplify_eq; lra.
Qed.


(** ** Kinematics *)

Lemma sqrt_square_plus_zero a : 0 <= a -> sqrt (a * a + 2 * GRAVITY * 0) = a.
Proof.
  intros Ha. replace (a * a + 2 * GRAVITY * 0) with (a * a) by ring.
  now apply sqrt_square.
Qed.

(** Where the discriminant is not negative, the flight time is a root of the
    height: the projectile is exactly on the ground at that instant. *)
Lemma flight_time_is_root angle v0 y0 :
  0 <= discriminant angle v0 y0 ->
  Point.y (calculateTrajectory angle v0 (calculateFlightTime angle v0 y0) y0) = 0.
Proof.
  unfold discriminant, calculateTrajectory, calculateFlightTime; cbn zeta.
  set (vy := v0 * sin (angle * PI / 180)).
  set (d := vy * vy + 2 * GRAVITY * y0).
  intros Hd.
  destruct (ltb d 0) eqn:E.
  - apply ltb_true in E; lra.
  - cbn [Point.y].
    assert (Hs : sqrt d * sqrt d = d) by now apply sqrt_sqrt.
    unfold d in Hs at 3. unfold GRAVITY in *.
    field_simplify_eq; [| lra]. nra.
Qed.

Lemma discriminant_nonneg angle v0 y0 : 0 <= y0 -> 0 <= discriminant angle v0 y0.
Proof.
  intros Hy; unfold discriminant, GRAVITY; cbn zeta.
  pose proof (Rle_0_sqr (v0 * sin (angle * PI / 180))) as H; unfold Rsqr in H.
  nra.
Qed.

Lemma flight_time_negative_discriminant angle v0 y0 :
  discriminant angle v0 y0 < 0 -> calculateFlightTime angle v0 y0 = 0.
Proof.
  unfold discriminant, calculateFlightTime; cbn zeta; intros H.
  apply ltb_true in H; now rewrite H.
Qed.

Lemma flight_time_formula angle v0 y0 :
  0 <= discriminant angle v0 y0 ->
  calculateFlightTime angle v0 y0 =
  (v0 * sin ((angle * PI) / 180) + sqrt (discriminant angle v0 y0)) / GRAVITY.
Proof.
  unfold discriminant, calculateFlightTime; cbn zeta; intros H.
  apply ltb_false in H; now rewrite H.
Qed.

Lemma flight_time_nonneg angle v0 y0 :
  15 <= angle <= 90 -> 0 <= v0 -> 0 <= calculateFlightTime angle v0 y0.
Proof.
  intros Ha Hv.
  destruct (Rlt_dec (discriminant angle v0 y0) 0) as [Hd | Hd].
  - rewrite flight_time_negative_discriminant by assumption; lra.
  - rewrite flight_time_formula by lra.
    pose proof (sin_angle_nonneg angle Ha) as Hs.
    pose proof (sqrt_pos (discriminant angle v0 y0)) as Hq.
    pose proof GRAVITY_pos.
    apply Rmult_le_pos; [nra | left; now apply Rinv_0_lt_compat].
Qed.

(** The range of a shot fired at 45 degrees from the ground. *)
Lemma range_45 v0 : 0 <= v0 -> calculateRange 45 v0 0 = v0 * v0 / GRAVITY.
Proof.
  intros Hv. unfold calculateRange, calculateFlightTime; cbn zeta.
  rewrite sin45, cos45.
  pose proof sqrt2_bounds as Hb.
  assert (H2 : sqrt 2 * sqrt 2 = 2) by (apply sqrt_sqrt; lra).
  assert (Hvy : 0 <= v0 * (sqrt 2 / 2)) by nra.
  rewrite (sqrt_square_plus_zero _ Hvy).
  destruct (ltb _ 0) eqn:E.
  - apply ltb_true in E; nra.
  - unfold GRAVITY; field_simplify_eq; nra.
Qed.

Lemma max_height_bounds_trajectory angle v0 t y0 :
  Point.y (calculateTrajectory angle v0 t y0) <= calculateMaxHeight angle v0 y0.
Proof.
  unfold calculateTrajectory, calculateMaxHeight, GRAVITY; cbn.
  set (vy := v0 * sin (angle * PI / 180)).
  pose proof (Rle_0_sqr (vy - 9.81 * t)) as H; unfold Rsqr in H.
  lra.
Qed.


(** C4 (flight time).  For an angle in [15, 90], a velocity [v0 >= 0] and any
    launch height, [calculateFlightTime] is not negative; it is 0 where the
    discriminant [vy^2 + 2 g y0] is negative and [(vy + sqrt disc) / g]
    otherwise. *)
Theorem flight_time_nonneg_and_cases angle v0 y0 :
  15 <= angle <= 90 -> 0 <= v0 ->
  let vy := v0 * sin ((angle * PI) / 180) in
  let disc := vy * vy + 2 * GRAVITY * y0 in
  0 <= calculateFlightTime angle v0 y0 /\
  (disc < 0 -> calculateFlightTime angle v0 y0 = 0) /\
  (~ disc < 0 -> calculateFlightTime angle v0 y0 = (vy + sqrt disc) / GRAVITY).
Proof.
  intros Ha Hv vy disc. split; [now apply flight_time_nonneg |]. split.
  - apply flight_time_negative_discriminant.
  - intros H. apply flight_time_formula. fold vy. unfold discriminant. fold vy disc. lra.
Qed.

(** C5 (scenario).  At 45 degrees, 20 m/s and launch height 0 the flight time
    is 2.883 s to three decimals, the range 40.77 m and the maximal height
    10.19 m to two decimals. *)
Theorem scenario_45_20 :
  Rabs (calculateFlightTime 45 20 0 - 2.883) < 0.0005 /\
  Rabs (calculateRange 45 20 0 - 40.77) < 0.005 /\
  Rabs (calculateMaxHeight 45 20 0 - 10.19) < 0.005.
Proof.
  pose proof sqrt2_bounds as Hb.
  assert (H2 : sqrt 2 * sqrt 2 = 2) by (apply sqrt_sqrt; lra).
  repeat split.
  - unfold calculateFlightTime; cbn zeta. rewrite sin45.
    assert (Hvy : 0 <= 20 * (sqrt 2 / 2)) by lra.
    rewrite (sqrt_square_plus_zero _ Hvy).
    destruct (ltb _ 0) eqn:E; [apply ltb_true in E; nra |].
    unfold GRAVITY. apply Rabs_def1; lra.
  - rewrite range_45 by lra. unfold GRAVITY. apply Rabs_def1; lra.
  - unfold calculateMaxHeight; cbn zeta. rewrite sin45. unfold GRAVITY.
    apply Rabs_def1; nra.
Qed.



(** ** Trajectory preview *)

(** The launch height and the horizontal offset of the muzzle, as
    [updateTrajectoryPreview] and [fireProjectile] compute them. *)
Lemma muzzle_height_nonneg angle :
  15 <= angle <= 90 -> 0 <= MOUNT_HEIGHT + BARREL_LENGTH * sin ((angle * PI) / 180).
Proof.
  intros H; pose proof (sin_angle_nonneg angle H).
  unfold MOUNT_HEIGHT, BARREL_LENGTH; lra.
Qed.

(** [points[points.length - 1]] after the loop, whenever the flight-time
    discriminant is not negative: the sample taken at the flight time, which
    lies exactly on the ground and is therefore kept. *)
Lemma preview_last_sample angle v0 :
  let angleRad := (angle * PI) / 180 in
  let y0 := MOUNT_HEIGHT + BARREL_LENGTH * sin angleRad in
  let muzzleX := BARREL_LENGTH * cos angleRad in
  0 <= discriminant angle v0 y0 ->
  nth_error (previewPoints angle v0)
    (List.length (previewPoints angle v0) - 1) =
  Some (Vector3.mk (muzzleX + calculateRange angle v0 y0) 0 0).
Proof.
  intros angleRad y0 muzzleX Hd.
  unfold previewPoints. fold angleRad y0 muzzleX. cbn zeta.
  rewrite seq_S, fold_left_app. cbn [fold_left Nat.add].
  set (prefix := fold_left _ (seq 0 100) []).
  replace (INR 100 / INR 100 * calculateFlightTime angle v0 y0)
    with (calculateFlightTime angle v0 y0)
    by (field; apply not_0_INR; discriminate).
  rewrite (flight_time_is_root angle v0 y0 Hd).
  replace (geb 0 0) with true by (symmetry; apply geb_true; lra).
  rewrite length_app, Nat.add_sub. cbn [List.length].
  rewrite nth_error_app2, Nat.sub_diag by lia. reflexivity.
Qed.

(** The range of the shot previewed at 45 degrees and 10 m/s, fired from the
    muzzle. *)
Lemma range_45_10_bounds :
  let y0 := MOUNT_HEIGHT + BARREL_LENGTH * sin ((45 * PI) / 180) in
  13 < calculateRange 45 10 y0 < 13.1.
Proof.
  cbn zeta. unfold calculateRange, calculateFlightTime; cbn zeta.
  rewrite sin45, cos45. unfold MOUNT_HEIGHT, BARREL_LENGTH, GRAVITY.
  pose proof sqrt2_bounds as Hb.
  assert (H2 : sqrt 2 * sqrt 2 = 2) by (apply sqrt_sqrt; lra).
  set (q := sqrt 2) in *.
  set (d := 10 * (q / 2) * (10 * (q / 2)) + 2 * 9.81 * (1.5 + 3 * (q / 2))).
  assert (Hd : 121 < d < 121.1) by (unfold d; nra).
  assert (Hr0 : 0 <= sqrt d) by apply sqrt_pos.
  assert (Hr : sqrt d * sqrt d = d) by (apply sqrt_sqrt; lra).
  assert (Hrb : 11 < sqrt d < 11.01) by (split; nra).
  destruct (ltb d 0) eqn:E; [apply ltb_true in E; lra |].
  set (r := sqrt d) in *.
  split.
  - apply Rlt_le_trans with (10 * (1.41421 / 2) * ((10 * (1.41421 / 2) + 11) / 9.81));
      [lra | nra].
  - apply Rle_lt_trans with (10 * (1.41422 / 2) * ((10 * (1.41422 / 2) + 11.01) / 9.81));
      [nra | lra].
Qed.

(** At 45 degrees and 10 m/s the last point of the preview is further from
    [calculateRange] than one sampling step (a hundredth of the range),
    whether the range is taken from the muzzle height or from height 0: the
    preview is drawn in world coordinates, shifted by the muzzle offset. *)
Lemma preview_last_point_misses_range :
  ~ (exists p,
       nth_error (previewPoints 45 10)
         (List.length (previewPoints 45 10) - 1) = Some p /\
       Vector3.y p <= 0 /\
       Rabs (Vector3.x p -
             calculateRange 45 10
               (MOUNT_HEIGHT + BARREL_LENGTH * sin ((45 * PI) / 180)))
       <= calculateRange 45 10
            (MOUNT_HEIGHT + BARREL_LENGTH * sin ((45 * PI) / 180)) / 100) /\
  ~ (exists p,
       nth_error (previewPoints 45 10)
         (List.length (previewPoints 45 10) - 1) = Some p /\
       Vector3.y p <= 0 /\
       Rabs (Vector3.x p - calculateRange 45 10 0)
       <= calculateRange 45 10 0 / 100).
Proof.
  set (y0 := MOUNT_HEIGHT + BARREL_LENGTH * sin ((45 * PI) / 180)).
  assert (Ha : 15 <= 45 <= 90) by lra.
  pose proof (preview_last_sample 45 10
                (discriminant_nonneg 45 10 _ (muzzle_height_nonneg 45 Ha))) as Hl.
  cbn zeta in Hl. fold y0 in Hl.
  pose proof range_45_10_bounds as Hr; cbn zeta in Hr; fold y0 in Hr.
  pose proof sqrt2_bounds as Hb.
  assert (Hm : 2.1 < BARREL_LENGTH * cos ((45 * PI) / 180))
    by (rewrite cos45; unfold BARREL_LENGTH; lra).
  split; intros (p & Hp & _ & Hx); rewrite Hl in Hp; injection Hp as <-;
    cbn [Vector3.x] in Hx.
  - rewrite Rabs_pos_eq in Hx; lra.
  - rewrite range_45 in Hx by lra. unfold GRAVITY in Hx.
    rewrite Rabs_pos_eq in Hx; lra.
Qed.

(** ** Camera controls *)

(** Case analysis on every test a handler makes. *)
Ltac break_tests :=
  repeat match goal with
         | |- context [match ?t with _ => _ end] => destruct t eqn:?
         end.

Lemma clamp_distance d : 5 <= Rmax 5 (Rmin 100 d) <= 100.
Proof.
  unfold Rmax, Rmin.
  destruct (Rle_dec 100 d); destruct (Rle_dec 5 _); lra.
Qed.

Lemma clamp_distance_top d : 100 <= d -> Rmax 5 (Rmin 100 d) = 100.
Proof.
  intros H. rewrite Rmin_left by lra. apply Rmax_right; lra.
Qed.

Lemma clamp_distance_bottom d : d <= 5 -> Rmax 5 (Rmin 100 d) = 5.
Proof.
  intros H. rewrite Rmin_right by lra. apply Rmax_left; lra.
Qed.

Lemma zoom_eq s : Controls.distance (cameraControlsRef s) = zoom s.
Proof. reflexivity. Qed.

Lemma zoom_updateCameraPosition s : zoom (updateCameraPosition s) = zoom s.
Proof. unfold updateCameraPosition; now destruct (cameraRef s). Qed.

Lemma zoom_handleWheel deltaY s :
  zoom (handleWheel deltaY s) = Rmax 5 (Rmin 100 (zoom s + deltaY * 0.05)).
Proof. unfold handleWheel; now rewrite zoom_updateCameraPosition. Qed.

Lemma zoom_handleMouseMove clientX clientY s :
  zoom (handleMouseMove clientX clientY s) = zoom s.
Proof.
  unfold handleMouseMove.
  destruct (negb _); [reflexivity | now rewrite zoom_updateCameraPosition].
Qed.

Lemma zoom_presetAnimate tr now s : zoom (presetAnimate tr now s) = zoom s.
Proof. unfold presetAnimate; now break_tests. Qed.

Lemma zoom_presetControls mode controls :
  5 <= Controls.distance controls <= 100 ->
  5 <= Controls.distance (presetControls mode controls) <= 100.
Proof. intros H; unfold presetControls; break_tests; cbn; lra. Qed.

Lemma zoom_setCameraPreset mode now0 now1 s :
  zoom (setCameraPreset mode now0 now1 s) =
  Controls.distance (presetControls mode (cameraControlsRef s)).
Proof.
  unfold setCameraPreset.
  destruct (cameraRef _); [now rewrite zoom_presetAnimate | reflexivity].
Qed.

Lemma zoom_animate f now s : zoom (animate f now s) = zoom s.
Proof. unfold animate; now break_tests. Qed.

Lemma zoom_fireProjectile now0 now1 s : zoom (fireProjectile now0 now1 s) = zoom s.
Proof.
  unfold fireProjectile; break_tests; try reflexivity.
  now rewrite zoom_animate.
Qed.

Lemma zoom_animationFrame now s : zoom (animationFrame now s) = zoom s.
Proof.
  unfold animationFrame; break_tests; try reflexivity.
  - now rewrite zoom_animate.
  - now rewrite zoom_presetAnimate.
Qed.

Lemma zoomInRange_step s e : zoomInRange s -> zoomInRange (step s e).
Proof.
  unfold zoomInRange; intros H; destruct e; cbn [step].
  - exact H.
  - now rewrite zoom_handleMouseMove.
  - exact H.
  - rewrite zoom_handleWheel; apply clamp_distance.
  - rewrite zoom_setCameraPreset; now apply zoom_presetControls.
  - now rewrite zoom_fireProjectile.
  - exact H.
  - exact H.
  - now rewrite zoom_animationFrame.
Qed.

Lemma zoomInRange_run events : forall s, zoomInRange s -> zoomInRange (run s events).
Proof.
  induction events as [| e events IH]; intros s H; [exact H |].
  apply IH, zoomInRange_step, H.
Qed.

Lemma zoomInRange_initialState : zoomInRange initialState.
Proof. unfold zoomInRange, zoom; cbn; lra. Qed.

Lemma run_cons s e events : run s (e :: events) = run (step s e) events.
Proof. reflexivity. Qed.

Lemma run_app s events1 events2 :
  run s (events1 ++ events2) = run (run s events1) events2.
Proof. apply fold_left_app. Qed.

(** Scrolling out by 10000 at least once ends at distance 100, scrolling in
    at distance 5. *)
Lemma zoom_wheel_out n s :
  (0 < n)%nat -> zoomInRange s -> zoom (run s (repeat (Wheel 10000) n)) = 100.
Proof.
  revert s; induction n as [| n IH]; intros s Hn H; [lia |].
  cbn [repeat]. rewrite run_cons.
  destruct n as [| n].
  - cbn. rewrite zoom_handleWheel. apply clamp_distance_top.
    unfold zoomInRange in H; lra.
  - apply IH; [lia | now apply zoomInRange_step].
Qed.

Lemma zoom_wheel_in n s :
  (0 < n)%nat -> zoomInRange s -> zoom (run s (repeat (Wheel (-10000)) n)) = 5.
Proof.
  revert s; induction n as [| n IH]; intros s Hn H; [lia |].
  cbn [repeat]. rewrite run_cons.
  destruct n as [| n].
  - cbn. rewrite zoom_handleWheel. apply clamp_distance_bottom.
    unfold zoomInRange in H; lra.
  - apply IH; [lia | now apply zoomInRange_step].
Qed.

(** C8 (distance clamp).  After any sequence of events from the initial
    state the camera distance lies in [5, 100]; after any such sequence,
    selecting a camera mode and then scrolling 1000 times by +10000 leaves
    the distance at 100, and scrolling 1000 times by -10000 leaves it at 5. *)
Theorem camera_distance_clamped :
  (forall events,
      5 <= Controls.distance (cameraControlsRef (run initialState events)) <= 100) /\
  (forall events mode now0 now1,
      Controls.distance
        (cameraControlsRef
           (run initialState
              (events ++ CameraPreset mode now0 now1 :: repeat (Wheel 10000) 1000)))
      = 100) /\
  (forall events mode now0 now1,
      Controls.distance
        (cameraControlsRef
           (run initialState
              (events ++ CameraPreset mode now0 now1 :: repeat (Wheel (-10000)) 1000)))
      = 5).
Proof.
  split; [| split]; intros events.
  - rewrite zoom_eq. apply (zoomInRange_run events), zoomInRange_initialState.
  - intros mode now0 now1.
    rewrite zoom_eq, run_app, run_cons.
    apply zoom_wheel_out; [apply Nat.lt_0_succ |].
    apply zoomInRange_step, zoomInRange_run, zoomInRange_initialState.
  - intros mode now0 now1.
    rewrite zoom_eq, run_app, run_cons.
    apply zoom_wheel_in; [apply Nat.lt_0_succ |].
    apply zoomInRange_step, zoomInRange_run, zoomInRange_initialState.
Qed.

(** ** Firing *)

Lemma setShowPanel_same s : setShowPanel (showPanel s) s = s.
Proof. now destruct s. Qed.

Lemma setShowPanel_twice a b s : setShowPanel a (setShowPanel b s) = setShowPanel a s.
Proof. reflexivity. Qed.

(** The guard of line 400: with a flight in progress only line 399 runs. *)
Lemma fire_while_firing now0 now1 s :
  isFiring s = true -> fireProjectile now0 now1 s = setShowPanel false s.
Proof.
  intros H; unfold fireProjectile; cbn [isFiring setShowPanel]; now rewrite H.
Qed.

(** A call that leaves the component firing leaves the panel closed. *)
Lemma fire_leaves_panel_closed now0 now1 s :
  isFiring (fireProjectile now0 now1 s) = true ->
  showPanel (fireProjectile now0 now1 s) = false.
Proof.
  unfold fireProjectile; cbn [isFiring setShowPanel projectileRef].
  destruct (isFiring s) eqn:Hf; [reflexivity |].
  destruct (projectileRef s) as [projectile |] eqn:Hp; [| reflexivity].
  unfold animate; cbn; break_tests; cbn; congruence.
Qed.

(** The first call of [animate], made while the clock still reads the start
    time, finds the projectile at the muzzle and in the air. *)
Lemma fire_starts_flight now s projectile :
  isFiring s = false -> projectileRef s = Some projectile ->
  15 <= cannonAngle s <= 90 -> 0 <= initialVelocity s ->
  isFiring (fireProjectile now now s) = true.
Proof.
  intros Hf Hp Ha Hv.
  unfold fireProjectile; cbn [isFiring setShowPanel projectileRef].
  rewrite Hf, Hp. unfold animate; cbn.
  replace ((now - now) / 1000) with 0 by lra.
  pose proof (muzzle_height_nonneg _ Ha) as Hy.
  pose proof (flight_time_nonneg (cannonAngle s) (initialVelocity s)
                (MOUNT_HEIGHT + BARREL_LENGTH * sin (cannonAngle s * PI / 180))
                Ha Hv) as Ht.
  match goal with
  | |- context [ltb ?a 0] => replace (ltb a 0) with false
      by (symmetry; apply ltb_false; lra)
  end.
  match goal with
  | |- context [gtb 0 ?b] => replace (gtb 0 b) with false
      by (symmetry; apply gtb_false; lra)
  end.
  cbn. break_tests; reflexivity.
Qed.

(** The initial state is idle, with the projectile mesh in place and the
    sliders at 45 degrees and 20 m/s. *)
Lemma initialState_idle :
  isFiring initialState = false /\
  projectileRef initialState = Some (Mesh.mk false (Vector3.mk 0 0 0)) /\
  cannonAngle initialState = 45 /\
  initialVelocity initialState = 20.
Proof. repeat split. Qed.

Lemma fire_initialState_flying now :
  isFiring (fireProjectile now now initialState) = true.
Proof.
  destruct initialState_idle as (Hf & Hp & Ha & Hv).
  apply (fire_starts_flight now initialState _ Hf Hp);
    [rewrite Ha | rewrite Hv]; lra.
Qed.

(** C10 (panel side effect).  Called while a flight is in progress,
    [fireProjectile] sets [showPanel] to false and leaves every other part of
    the state as it was. *)
Theorem fire_while_flying_only_closes_panel now0 now1 s :
  isFiring s = true ->
  let s' := fireProjectile now0 now1 s in
  showPanel s' = false /\
  cannonAngle s' = cannonAngle s /\
  initialVelocity s' = initialVelocity s /\
  isFiring s' = isFiring s /\
  cameraMode s' = cameraMode s /\
  projectileData s' = projectileData s /\
  cameraRef s' = cameraRef s /\
  projectileRef s' = projectileRef s /\
  trajectoryLineRef s' = trajectoryLineRef s /\
  projectileStateRef s' = projectileStateRef s /\
  cameraControlsRef s' = cameraControlsRef s /\
  animationFrames s' = animationFrames s.
Proof.
  intros H s'; subst s'. rewrite (fire_while_firing now0 now1 s H).
  cbn. repeat split.
Qed.

(** ** The animation tick *)

(** C3 (landing predicate).  While a flight is active, a tick at elapsed
    time [e] ends the flight (the projectile is deactivated and hidden, firing
    is enabled again, the panel re-opened) if and only if the computed height
    is negative or [e > timeOfFlight + 0.1]; otherwise the flight stays active
    and the published position is the trajectory position shifted by the
    horizontal launch offset [startX] (the launch height is the [y0] already
    passed to [calculateTrajectory]): on the mesh, in [projectileData] and, in
    follow mode, as the camera target. *)
Theorem tick_lands_iff_predicate f now s projectile camera :
  ProjectileState.active (projectileStateRef s) = true ->
  projectileRef s = Some projectile ->
  cameraRef s = Some camera ->
  let e := elapsedAt f now in
  let pos :=
    calculateTrajectory (Flight.cannonAngle f) (Flight.initialVelocity f) e
      (Flight.y0 f) in
  let landed := Point.y pos < 0 \/ e > Flight.timeOfFlight f + 0.1 in
  let world := Vector3.mk (Flight.startX f + Point.x pos) (Point.y pos) 0 in
  let s' := animate f now s in
  (flightEnded s' <-> landed) /\
  (~ landed ->
   ProjectileState.active (projectileStateRef s') = true /\
   isFiring s' = isFiring s /\
   projectileRef s' = Some (Mesh.mk (Mesh.visible projectile) world) /\
   ProjectileData.currentTime (projectileData s') = toFixed e 2 /\
   ProjectileData.position (projectileData s') =
     (toFixed (Vector3.x world) 2, toFixed (Vector3.y world) 2) /\
   (Flight.cameraMode f = "follow"%string ->
    Controls.target (cameraControlsRef s') = world) /\
   animationFrames s' = animationFrames s ++ [FlightAnimate f]).
Proof.
  intros Hact Hp Hc e pos landed world s'.
  subst s'. unfold animate, flightEnded. rewrite Hact. cbn [negb].
  fold (elapsedAt f now). fold e. fold pos.
  destruct (ltb (Point.y pos) 0) eqn:Hy; cbn [orb].
  - apply ltb_true in Hy. cbn [projectileRef setProjectileState]. rewrite Hp. cbn.
    split; [| intros Hn; exfalso; apply Hn; now left].
    split; [intros _; now left | intros _; repeat split].
  - apply ltb_false in Hy.
    destruct (gtb e (Flight.timeOfFlight f + 0.1)) eqn:He.
    + apply gtb_true in He. cbn [projectileRef setProjectileState]. rewrite Hp. cbn.
      split; [| intros Hn; exfalso; apply Hn; right; exact He].
      split; [intros _; right; exact He | intros _; repeat split].
    + apply gtb_false in He. rewrite Hp.
      assert (Hn : ~ landed) by (unfold landed; lra).
      destruct (Flight.cameraMode f =? "follow")%string eqn:Hm; cbn; rewrite ?Hc; cbn.
      * rewrite Hact.
        split; [split; [intros (Hd & _); discriminate | intros Hl; now destruct Hn] |].
        intros _; repeat split.
      * rewrite Hact.
        split; [split; [intros (Hd & _); discriminate | intros Hl; now destruct Hn] |].
        intros _; repeat split.
        intros Hfollow. rewrite Hfollow in Hm. discriminate.
Qed.

(** ** The definitions at concrete inputs *)

Example vertical_shot :
  calculateRange 90 20 0 = 0 /\
  Rabs (calculateMaxHeight 90 20 0 - 20.39) < 0.005.
Proof.
  assert (H90 : (90 * PI) / 180 = PI / 2) by field.
  split.
  - unfold calculateRange; cbn zeta. rewrite H90, cos_PI2. ring.
  - unfold calculateMaxHeight, GRAVITY; cbn zeta. rewrite H90, sin_PI2.
    apply Rabs_def1; lra.
Qed.

Example flight_time_below_ground : calculateFlightTime 90 0 (-1) = 0.
Proof.
  apply flight_time_negative_discriminant.
  unfold discriminant, GRAVITY; cbn zeta. lra.
Qed.

Example wheel_from_initialState : zoom (handleWheel 100 initialState) = 35.
Proof.
  rewrite zoom_handleWheel.
  replace (zoom initialState) with 30 by reflexivity.
  rewrite Rmin_right by lra. rewrite Rmax_right by lra. lra.
Qed.

Example preset_closeup controls :
  Controls.distance (presetControls "closeup" controls) = 8 /\
  Controls.target (presetControls "closeup" controls) = Vector3.mk 0 3 0.
Proof. split; reflexivity. Qed.

Example preset_unknown controls : presetControls "top" controls = controls.
Proof. reflexivity. Qed.

Example fire_without_projectile now0 now1 :
  fireProjectile now0 now1 firstRender = firstRender.
Proof. reflexivity. Qed.

(** ** Instances at concrete inputs *)


Lemma flight_time_nonneg_and_cases_witness :
  (15 <= 45 <= 90 /\ 0 <= 20) /\ 0 <= calculateFlightTime 45 20 0.
Proof.
  split; [lra |].
  apply (flight_time_nonneg_and_cases 45 20 0); lra.
Defined.



Lemma fire_while_flying_only_closes_panel_witness :
  isFiring exampleFlying = true /\
  showPanel exampleFlying = true /\
  showPanel (fireProjectile 7 8 exampleFlying) = false /\
  animationFrames (fireProjectile 7 8 exampleFlying) =
  animationFrames exampleFlying.
Proof.
  split; [reflexivity |]. split; [reflexivity |].
  pose proof (fire_while_flying_only_closes_panel 7 8 exampleFlying eq_refl) as H.
  cbn zeta in H. split; [apply H | apply H].
Defined.

Lemma tick_lands_iff_predicate_witness :
  ProjectileState.active (projectileStateRef exampleFlying) = true /\
  projectileRef exampleFlying = Some (Mesh.mk true (Vector3.mk 0 0 0)) /\
  cameraRef exampleFlying =
    Some (Camera.mk (Vector3.mk 15 15 25) (Vector3.mk 0 5 0)) /\
  (flightEnded (animate exampleFlight 1000 exampleFlying) <->
   Point.y (positionAt exampleFlight 1000) < 0 \/
   elapsedAt exampleFlight 1000 > Flight.timeOfFlight exampleFlight + 0.1).
Proof.
  split; [reflexivity |]. split; [reflexivity |]. split; [reflexivity |].
  apply (tick_lands_iff_predicate exampleFlight 1000 exampleFlying
           (Mesh.mk true (Vector3.mk 0 0 0))
           (Camera.mk (Vector3.mk 15 15 25) (Vector3.mk 0 5 0))
           eq_refl eq_refl eq_refl).
Defined.

(** * Further properties of the code *)

(** ** Kinematics *)

Lemma sin_deg_nonneg angle : 0 <= angle <= 180 -> 0 <= sin ((angle * PI) / 180).
Proof.
  intros H; pose proof PI_RGT_0. apply sin_ge_0; nra.
Qed.

(** The two roots of the height, when the discriminant is not negative:
    [y(t) = (g / 2) (T - t) (t - T')] with [T] the flight time. *)
Lemma height_factored angle v0 y0 t :
  0 <= discriminant angle v0 y0 ->
  let vy := v0 * sin ((angle * PI) / 180) in
  Point.y (calculateTrajectory angle v0 t y0) =
  GRAVITY / 2 * (calculateFlightTime angle v0 y0 - t) *
  (t - (vy - sqrt (discriminant angle v0 y0)) / GRAVITY).
Proof.
  intros Hd vy. rewrite flight_time_formula by exact Hd. fold vy.
  pose proof (sqrt_sqrt _ Hd) as Hs.
  unfold discriminant in Hs at 3; cbn zeta in Hs; fold vy in Hs.
  unfold calculateTrajectory; cbn. fold vy.
  set (r := sqrt (discriminant angle v0 y0)) in *.
  unfold GRAVITY in *. field_simplify_eq; [nra | lra].
Qed.

Lemma sqrt_discriminant_dominates angle v0 y0 :
  0 <= y0 ->
  let vy := v0 * sin ((angle * PI) / 180) in
  vy <= sqrt (discriminant angle v0 y0) /\ - vy <= sqrt (discriminant angle v0 y0).
Proof.
  intros Hy vy.
  pose proof (discriminant_nonneg angle v0 y0 Hy) as Hd.
  pose proof (sqrt_sqrt _ Hd) as Hs.
  pose proof (sqrt_pos (discriminant angle v0 y0)) as Hp.
  unfold discriminant in Hs at 3; cbn zeta in Hs; fold vy in Hs.
  set (r := sqrt (discriminant angle v0 y0)) in *.
  unfold GRAVITY in Hs. split; nra.
Qed.

(** From the ground, with a vertical velocity that is not negative, the
    range is twice the product of the two velocity components over [g]. *)
Lemma range_from_ground_product angle v0 :
  0 <= v0 * sin ((angle * PI) / 180) ->
  calculateRange angle v0 0 =
  2 * (v0 * cos ((angle * PI) / 180)) * (v0 * sin ((angle * PI) / 180))
  / GRAVITY.
Proof.
  intros Hvy. unfold calculateRange, calculateFlightTime; cbn zeta.
  rewrite (sqrt_square_plus_zero _ Hvy).
  destruct (ltb _ 0) eqn:E.
  - apply ltb_true in E. unfold GRAVITY in E. nra.
  - unfold GRAVITY. field_simplify_eq; [nra | lra].
Qed.

(** X1.  From the ground the range is the textbook [v0^2 sin(2 theta) / g]
    the panel displays (line 687). *)
Theorem range_from_ground_closed_form angle v0 :
  0 <= angle <= 180 -> 0 <= v0 ->
  calculateRange angle v0 0 =
  v0 * v0 * sin (2 * ((angle * PI) / 180)) / GRAVITY.
Proof.
  intros Ha Hv. pose proof (sin_deg_nonneg angle Ha) as Hs.
  rewrite range_from_ground_product by nra.
  rewrite sin_2a. f_equal. ring.
Qed.

(** X2.  Read over the reals: from the ground no launch angle reaches
    further than 45 degrees. *)
Theorem range_from_ground_maximal_at_45 angle v0 :
  0 <= angle <= 180 -> 0 <= v0 ->
  calculateRange angle v0 0 <= calculateRange 45 v0 0.
Proof.
  intros Ha Hv. pose proof (sin_deg_nonneg angle Ha) as Hs.
  rewrite range_from_ground_product by nra.
  rewrite range_45 by assumption.
  set (a := angle * PI / 180) in *.
  pose proof (sin2_cos2 a) as H1; unfold Rsqr in H1.
  pose proof (Rle_0_sqr (sin a - cos a)) as H2; unfold Rsqr in H2.
  assert (H3 : 2 * sin a * cos a <= 1) by nra.
  pose proof (Rle_0_sqr v0) as H4; unfold Rsqr in H4.
  unfold GRAVITY. apply Rmult_le_compat_r; [lra | nra].
Qed.

(** X3.  Read over the reals: from the ground, complementary launch angles
    reach equally far. *)
Theorem range_from_ground_complementary angle v0 :
  0 <= angle <= 90 -> 0 <= v0 ->
  calculateRange (90 - angle) v0 0 = calculateRange angle v0 0.
Proof.
  intros Ha Hv.
  assert (Ha1 : 0 <= angle <= 180) by lra.
  assert (Ha2 : 0 <= 90 - angle <= 180) by lra.
  pose proof (sin_deg_nonneg _ Ha1). pose proof (sin_deg_nonneg _ Ha2).
  rewrite !range_from_ground_product by nra.
  replace ((90 - angle) * PI / 180) with (PI / 2 - angle * PI / 180) by field.
  rewrite sin_shift, cos_shift. f_equal. ring.
Qed.

(** X4.  Read over the reals: the bound of [calculateMaxHeight] is attained,
    at time [vy / g] the projectile is exactly at the maximal height. *)
Theorem max_height_attained_at_apex angle v0 y0 :
  Point.y (calculateTrajectory angle v0
             (v0 * sin ((angle * PI) / 180) / GRAVITY) y0)
  = calculateMaxHeight angle v0 y0.
Proof.
  unfold calculateTrajectory, calculateMaxHeight, GRAVITY; cbn.
  set (vy := v0 * sin (angle * PI / 180)).
  field_simplify_eq; [nra | lra].
Qed.

(** Launched from [y0 >= 0], the projectile is on or above the ground up to
    the flight time and below it afterwards. *)
Lemma height_signs angle v0 y0 t :
  0 <= y0 ->
  0 <= calculateFlightTime angle v0 y0 /\
  (0 <= t <= calculateFlightTime angle v0 y0 ->
   0 <= Point.y (calculateTrajectory angle v0 t y0)) /\
  (calculateFlightTime angle v0 y0 < t ->
   Point.y (calculateTrajectory angle v0 t y0) < 0).
Proof.
  intros Hy.
  pose proof (discriminant_nonneg angle v0 y0 Hy) as Hd.
  rewrite (height_factored angle v0 y0 t Hd). cbn zeta.
  destruct (sqrt_discriminant_dominates angle v0 y0 Hy) as [H1 H2].
  cbn zeta in H1, H2.
  assert (HT : 0 <= calculateFlightTime angle v0 y0).
  { rewrite flight_time_formula by exact Hd. unfold GRAVITY.
    apply Rmult_le_pos; lra. }
  set (T := calculateFlightTime angle v0 y0) in *.
  set (r := sqrt (discriminant angle v0 y0)) in *.
  set (vy := v0 * sin (angle * PI / 180)) in *.
  assert (HT' : (vy - r) / GRAVITY <= 0).
  { unfold GRAVITY, Rdiv.
    assert (0 < / 9.81) by (apply Rinv_0_lt_compat; lra). nra. }
  set (T' := (vy - r) / GRAVITY) in *.
  unfold GRAVITY. split; [exact HT |]. split; intros H; nra.
Qed.

(** X5.  Read over the reals: launched from height [y0 >= 0], the projectile
    is below the ground exactly after the flight time, and up to it the height
    is not negative. *)
Theorem below_ground_iff_after_flight_time angle v0 y0 t :
  0 <= y0 -> 0 <= t ->
  (Point.y (calculateTrajectory angle v0 t y0) < 0 <->
   calculateFlightTime angle v0 y0 < t).
Proof.
  intros Hy Ht.
  destruct (height_signs angle v0 y0 t Hy) as (_ & Hin & Hout).
  split; [| exact Hout].
  intros Hneg.
  destruct (Rlt_dec (calculateFlightTime angle v0 y0) t) as [H | H];
    [exact H | exfalso].
  assert (0 <= Point.y (calculateTrajectory angle v0 t y0)) by (apply Hin; lra).
  lra.
Qed.

(** X6.  From the ground the flight lasts twice the time to the apex. *)
Theorem flight_time_from_ground_twice_apex angle v0 :
  0 <= angle <= 180 -> 0 <= v0 ->
  calculateFlightTime angle v0 0 =
  2 * (v0 * sin ((angle * PI) / 180) / GRAVITY).
Proof.
  intros Ha Hv. pose proof (sin_deg_nonneg angle Ha) as Hs.
  unfold calculateFlightTime; cbn zeta.
  assert (Hvy : 0 <= v0 * sin (angle * PI / 180)) by nra.
  rewrite (sqrt_square_plus_zero _ Hvy).
  destruct (ltb _ 0) eqn:E.
  - apply ltb_true in E. unfold GRAVITY in E. nra.
  - unfold GRAVITY. field_simplify_eq; [nra | lra].
Qed.

(** X7.  A higher muzzle gives a longer flight. *)
Theorem flight_time_monotone_in_height angle v0 y0 y0' :
  0 <= y0 -> y0 <= y0' ->
  calculateFlightTime angle v0 y0 <= calculateFlightTime angle v0 y0'.
Proof.
  intros Hy Hle.
  rewrite !flight_time_formula by (apply discriminant_nonneg; lra).
  assert (Hd : discriminant angle v0 y0 <= discriminant angle v0 y0')
    by (unfold discriminant, GRAVITY; cbn zeta; lra).
  apply sqrt_le_1_alt in Hd.
  unfold GRAVITY. apply Rmult_le_compat_r; lra.
Qed.

(** ** Trajectory preview *)

Lemma fold_left_push_kept {A B : Type} (keep : A -> bool) (point : A -> B) l :
  forall acc,
    fold_left (fun points i => if keep i then points ++ [point i] else points)
      l acc
    = acc ++ map point (filter keep l).
Proof.
  induction l as [| a l IH]; intros acc; cbn [fold_left filter map].
  - now rewrite app_nil_r.
  - rewrite IH. destruct (keep a); [| reflexivity].
    now rewrite <- app_assoc.
Qed.

(** The preview is the list of the kept samples, in order. *)
Lemma previewPoints_kept_samples angle v0 :
  previewPoints angle v0 =
  map (previewSample angle v0)
    (filter (fun i => geb (Vector3.y (previewSample angle v0 i)) 0) (seq 0 101)).
Proof.
  unfold previewPoints; cbv zeta.
  rewrite fold_left_push_kept. cbn [app].
  unfold previewSample; cbv zeta. cbn [Vector3.y]. reflexivity.
Qed.

(** X8.  Whatever the angle and velocity, the preview holds at most 101
    points, none below the ground, all in the plane z = 0. *)
Theorem preview_points_on_or_above_ground angle v0 :
  (List.length (previewPoints angle v0) <= 101)%nat /\
  forall p, In p (previewPoints angle v0) ->
            0 <= Vector3.y p /\ Vector3.z p = 0.
Proof.
  rewrite previewPoints_kept_samples. split.
  - rewrite length_map.
    etransitivity; [apply filter_length_le | now rewrite length_seq].
  - intros p Hp. apply in_map_iff in Hp as (i & <- & Hi).
    apply filter_In in Hi as [_ Hk]. apply geb_true in Hk.
    split; [exact Hk | reflexivity].
Qed.

Lemma sample_time_in_flight T i :
  0 <= T -> (i <= 100)%nat -> 0 <= INR i / INR 100 * T <= T.
Proof.
  intros HT Hi.
  assert (H100 : INR 100 = 100) by (rewrite INR_IZR_INZ; reflexivity).
  pose proof (pos_INR i) as H0.
  apply le_INR in Hi. rewrite H100 in *.
  split; [apply Rmult_le_pos; [| exact HT]; apply Rmult_le_pos; lra |].
  assert (INR i / 100 <= 1) by lra. nra.
Qed.

Lemma flight_time_nonneg_from_height angle v0 y0 :
  0 <= y0 -> 0 <= calculateFlightTime angle v0 y0.
Proof.
  intros Hy.
  rewrite flight_time_formula by now apply discriminant_nonneg.
  destruct (sqrt_discriminant_dominates angle v0 y0 Hy) as [_ H].
  cbn zeta in H. unfold GRAVITY, Rdiv.
  assert (0 < / 9.81) by (apply Rinv_0_lt_compat; lra). nra.
Qed.

(** X9.  Read over the reals: for a launch angle between 0 and 180 degrees
    (the slider gives 15 to 90) no sample is dropped, the preview has exactly
    101 points, point [i] is the sample at [i / 100] of the flight time, and
    the first point is the muzzle.  (In binary64 the sample at the flight
    time can fall below 0 and be dropped.) *)
Theorem preview_keeps_every_sample angle v0 :
  0 <= angle <= 180 ->
  previewPoints angle v0 = map (previewSample angle v0) (seq 0 101) /\
  List.length (previewPoints angle v0) = 101%nat /\
  nth_error (previewPoints angle v0) 0 =
  Some (Vector3.mk (BARREL_LENGTH * cos ((angle * PI) / 180))
          (MOUNT_HEIGHT + BARREL_LENGTH * sin ((angle * PI) / 180)) 0).
Proof.
  intros Ha.
  assert (Hy0 : 0 <= MOUNT_HEIGHT + BARREL_LENGTH * sin ((angle * PI) / 180)).
  { pose proof (sin_deg_nonneg angle Ha). unfold MOUNT_HEIGHT, BARREL_LENGTH; lra. }
  assert (Hall : previewPoints angle v0 = map (previewSample angle v0) (seq 0 101)).
  { rewrite previewPoints_kept_samples. f_equal.
    apply forallb_filter_id. apply forallb_forall. intros i Hi.
    apply in_seq in Hi. apply geb_true.
    unfold previewSample; cbn [Vector3.y].
    set (y0 := MOUNT_HEIGHT + BARREL_LENGTH * sin ((angle * PI) / 180)) in *.
    pose proof (flight_time_nonneg_from_height angle v0 y0 Hy0) as HT.
    assert (Hi' : (i <= 100)%nat) by lia.
    destruct (sample_time_in_flight _ i HT Hi') as [Ht0 Ht1].
    apply (height_signs angle v0 y0 _ Hy0). exact (conj Ht0 Ht1). }
  split; [exact Hall |]. split.
  - now rewrite Hall, length_map, length_seq.
  - rewrite Hall. cbn [seq map nth_error]. unfold previewSample; cbn.
    f_equal. f_equal; unfold Rdiv; ring.
Qed.

(** X10.  Recomputing the preview and a tick of the flight do not interfere:
    in either order they give the same state. *)
Theorem preview_update_commutes_with_tick f now s :
  updateTrajectoryPreview (animate f now s) =
  animate f now (updateTrajectoryPreview s).
Proof.
  unfold updateTrajectoryPreview.
  assert (Hline : trajectoryLineRef (animate f now s) = trajectoryLineRef s)
    by (unfold animate; break_tests; reflexivity).
  assert (Ha : cannonAngle (animate f now s) = cannonAngle s)
    by (unfold animate; break_tests; reflexivity).
  assert (Hv : initialVelocity (animate f now s) = initialVelocity s)
    by (unfold animate; break_tests; reflexivity).
  rewrite Hline, Ha, Hv.
  destruct (trajectoryLineRef s) as [line |]; [| reflexivity].
  generalize (previewPoints (cannonAngle s) (initialVelocity s)) as points.
  intros points. unfold animate; cbn; break_tests; reflexivity.
Qed.

(** ** Camera controls *)

Lemma elevation_bounds_ordered : 0.1 <= 0.3 <= PI / 2 - 0.1.
Proof. pose proof PI2_3_2; lra. Qed.

Lemma clamp_elevation r : 0.1 <= Rmax 0.1 (Rmin (PI / 2 - 0.1) r) <= PI / 2 - 0.1.
Proof.
  pose proof elevation_bounds_ordered.
  unfold Rmax, Rmin.
  destruct (Rle_dec (PI / 2 - 0.1) r); destruct (Rle_dec 0.1 _); lra.
Qed.

Lemma controls_updateCameraPosition s :
  cameraControlsRef (updateCameraPosition s) = cameraControlsRef s.
Proof. unfold updateCameraPosition; now destruct (cameraRef s). Qed.

Lemma controls_presetAnimate tr now s :
  cameraControlsRef (presetAnimate tr now s) = cameraControlsRef s.
Proof. unfold presetAnimate; now break_tests. Qed.

Lemma rotation_animate f now s :
  Controls.rotation (cameraControlsRef (animate f now s)) =
  Controls.rotation (cameraControlsRef s).
Proof. unfold animate; now break_tests. Qed.

Lemma rotation_fireProjectile now0 now1 s :
  Controls.rotation (cameraControlsRef (fireProjectile now0 now1 s)) =
  Controls.rotation (cameraControlsRef s).
Proof.
  unfold fireProjectile; break_tests; try reflexivity.
  now rewrite rotation_animate.
Qed.

Lemma elevation_presetControls mode controls :
  0.1 <= Point.x (Controls.rotation controls) <= PI / 2 - 0.1 ->
  0.1 <= Point.x (Controls.rotation (presetControls mode controls))
  <= PI / 2 - 0.1.
Proof.
  intros H; pose proof elevation_bounds_ordered.
  unfold presetControls; break_tests; cbn; lra.
Qed.

Lemma elevationInRange_step s e : elevationInRange s -> elevationInRange (step s e).
Proof.
  unfold elevationInRange, elevation; intros H; destruct e; cbn [step].
  - exact H.
  - unfold handleMouseMove. destruct (negb _); [exact H |].
    rewrite controls_updateCameraPosition. cbn. apply clamp_elevation.
  - exact H.
  - unfold handleWheel. rewrite controls_updateCameraPosition. exact H.
  - unfold setCameraPreset. cbn [cameraRef setControls setCameraMode].
    destruct (cameraRef s);
      [rewrite controls_presetAnimate |]; cbn; now apply elevation_presetControls.
  - now rewrite rotation_fireProjectile.
  - exact H.
  - exact H.
  - unfold animationFrame; break_tests; try exact H.
    + now rewrite rotation_animate.
    + now rewrite controls_presetAnimate.
Qed.

Lemma elevationInRange_run events :
  forall s, elevationInRange s -> elevationInRange (run s events).
Proof.
  induction events as [| e events IH]; intros s H; [exact H |].
  apply IH, elevationInRange_step, H.
Qed.

(** X11.  After any sequence of events from the initial state the camera
    elevation [rotation.x] lies between 0.1 and pi/2 - 0.1: the camera never
    reaches the ground plane nor the vertical. *)
Theorem camera_elevation_clamped events :
  0.1 <= elevation (run initialState events) <= PI / 2 - 0.1.
Proof.
  apply (elevationInRange_run events).
  unfold elevationInRange, elevation. cbn. apply elevation_bounds_ordered.
Qed.

Lemma last_default_irrelevant {A : Type} (l : list A) :
  forall a d d', last (a :: l) d = last (a :: l) d'.
Proof.
  induction l as [| b l IH]; intros a d d'; [reflexivity |].
  change (last (b :: l) d = last (b :: l) d'). apply IH.
Qed.

Lemma last_cons_default {A : Type} (a : A) l d : last (a :: l) d = last l a.
Proof.
  destruct l as [| b l]; [reflexivity |].
  change (last (b :: l) d = last (b :: l) a). apply last_default_irrelevant.
Qed.

Lemma drag_moves points :
  forall s,
    Controls.isDragging (cameraControlsRef s) = true ->
    let s' := run s (mouseMoves points) in
    Controls.isDragging (cameraControlsRef s') = true /\
    Controls.previousMousePosition (cameraControlsRef s') =
      last points (Controls.previousMousePosition (cameraControlsRef s)) /\
    azimuth s' =
      azimuth s +
      (Point.x (last points (Controls.previousMousePosition (cameraControlsRef s)))
       - Point.x (Controls.previousMousePosition (cameraControlsRef s))) * 0.005.
Proof.
  induction points as [| p points IH]; intros s Hd; cbn zeta.
  - cbn. repeat split; [exact Hd | lra].
  - unfold mouseMoves; cbn [map]. rewrite run_cons. fold (mouseMoves points).
    set (s1 := step s (MouseMove (Point.x p) (Point.y p))).
    assert (H1 : Controls.isDragging (cameraControlsRef s1) = true /\
                 Controls.previousMousePosition (cameraControlsRef s1) = p /\
                 azimuth s1 =
                 azimuth s +
                 (Point.x p -
                  Point.x (Controls.previousMousePosition (cameraControlsRef s)))
                 * 0.005).
    { unfold s1, azimuth; cbn [step]. unfold handleMouseMove. rewrite Hd.
      cbn [negb]. rewrite controls_updateCameraPosition. cbn.
      repeat split. now destruct p. }
    destruct H1 as (Hd1 & Hp1 & Ha1).
    destruct (IH s1 Hd1) as (Hd2 & Hp2 & Ha2). cbn zeta in *.
    rewrite Hp1 in Hp2, Ha2.
    assert (Hlast : last (p :: points)
                      (Controls.previousMousePosition (cameraControlsRef s))
                    = last points p) by apply last_cons_default.
    rewrite Hlast. repeat split; [exact Hd2 | exact Hp2 |].
    rewrite Ha2, Ha1. ring.
Qed.

(** X12.  Read over the reals: a drag is drift-free in azimuth, however the
    pointer travels between press and the last sample, the azimuth has changed
    by 0.005 times the horizontal distance between the two. *)
Theorem drag_azimuth_path_independent s x0 y0 points :
  azimuth (run (handleMouseDown x0 y0 s) (mouseMoves points)) =
  azimuth s + (Point.x (last points (Point.mk x0 y0)) - x0) * 0.005.
Proof.
  destruct (drag_moves points (handleMouseDown x0 y0 s) eq_refl) as (_ & _ & H).
  exact H.
Qed.

(** X13.  Pointer moves after the button is released (or the pointer has
    left the canvas) change nothing. *)
Theorem moves_after_release_do_nothing s points :
  run (handleMouseUp s) (mouseMoves points) = handleMouseUp s.
Proof.
  induction points as [| p points IH]; [reflexivity |].
  unfold mouseMoves; cbn [map]. rewrite run_cons. fold (mouseMoves points).
  cbn [step]. exact IH.
Qed.

Lemma updateCameraPosition_on_orbit s camera :
  cameraRef s = Some camera -> cameraOnOrbit (updateCameraPosition s).
Proof.
  intros Hc. unfold cameraOnOrbit, updateCameraPosition. rewrite Hc.
  eexists; split; [reflexivity |]. cbn. split; reflexivity.
Qed.

(** X14.  With the camera in place, a wheel event and a pointer move during a
    drag leave the camera where the new controls say: at the orbit position
    computed from them, looking at their target. *)
Theorem wheel_and_drag_keep_camera_on_orbit s camera :
  cameraRef s = Some camera ->
  (forall deltaY, cameraOnOrbit (handleWheel deltaY s)) /\
  (forall clientX clientY,
      Controls.isDragging (cameraControlsRef s) = true ->
      cameraOnOrbit (handleMouseMove clientX clientY s)).
Proof.
  intros Hc. split.
  - intros deltaY. unfold handleWheel.
    now apply updateCameraPosition_on_orbit with camera.
  - intros clientX clientY Hd. unfold handleMouseMove. rewrite Hd. cbn [negb].
    now apply updateCameraPosition_on_orbit with camera.
Qed.

Lemma lerp_from_start v1 v2 : Vector3.lerpVectors v1 v2 0 = v1.
Proof.
  destruct v1, v2; unfold Vector3.lerpVectors; cbn. f_equal; ring.
Qed.

Lemma eased_in_unit_interval p : 0 <= p <= 1 -> 0 <= 1 - (1 - p) ^ 3 <= 1.
Proof.
  intros H. set (q := 1 - p). assert (Hq : 0 <= q <= 1) by (unfold q; lra).
  assert (H2 : 0 <= q * q <= 1) by nra.
  replace (q ^ 3) with (q * (q * q)) by ring. nra.
Qed.

(** From 500 ms on, a transition frame writes the end of the interpolation
    (factor 1) and stops. *)
Lemma presetAnimate_finished tr now s camera :
  cameraRef s = Some camera ->
  500 <= now - Transition.startTime tr ->
  presetAnimate tr now s =
  setCamera
    (Some (Camera.mk
             (Vector3.lerpVectors (Transition.startPos tr)
                (orbit (cameraControlsRef s)) 1)
             (Controls.target (cameraControlsRef s)))) s.
Proof.
  intros Hc He. unfold presetAnimate, Transition.duration. rewrite Hc.
  rewrite Rmin_right by lra.
  replace (ltb 1 1) with false by (symmetry; apply ltb_false; lra).
  replace (1 - (1 - 1) ^ 3) with 1 by ring.
  reflexivity.
Qed.

(** Before 500 ms a transition frame asks for the next one. *)
Lemma presetAnimate_pending tr now s camera :
  cameraRef s = Some camera ->
  now - Transition.startTime tr < 500 ->
  animationFrames (presetAnimate tr now s) =
  animationFrames s ++ [PresetAnimate tr].
Proof.
  intros Hc He. unfold presetAnimate, Transition.duration. rewrite Hc.
  rewrite Rmin_left by lra.
  replace (ltb ((now - Transition.startTime tr) / 500) 1) with true
    by (symmetry; apply ltb_true; lra).
  reflexivity.
Qed.

Lemma presetAnimate_keeps_camera tr now s camera :
  cameraRef s = Some camera ->
  exists camera', cameraRef (presetAnimate tr now s) = Some camera'.
Proof.
  intros Hc. unfold presetAnimate. rewrite Hc.
  destruct (ltb _ 1); now eexists.
Qed.

Lemma cameraMode_presetAnimate tr now s :
  cameraMode (presetAnimate tr now s) = cameraMode s.
Proof. unfold presetAnimate; now break_tests. Qed.

(** X15.  One frame of a preset transition, with the camera in place.  It
    never writes the controls; from 500 ms on it writes the end of the
    interpolation (factor 1) between the start position and the orbit
    position of the controls, looks at their target and asks for no further
    frame; before that it asks for exactly one; at 0 ms the camera is still
    where the transition started; and at any time the interpolation factor
    lies between 0 and 1 (the ease-out never overshoots). *)
Theorem preset_transition_frame tr now s camera :
  cameraRef s = Some camera ->
  let s' := presetAnimate tr now s in
  let elapsed := now - Transition.startTime tr in
  cameraControlsRef s' = cameraControlsRef s /\
  (500 <= elapsed ->
   cameraRef s' =
     Some (Camera.mk
             (Vector3.lerpVectors (Transition.startPos tr)
                (orbit (cameraControlsRef s)) 1)
             (Controls.target (cameraControlsRef s))) /\
   animationFrames s' = animationFrames s) /\
  (elapsed < 500 ->
   animationFrames s' = animationFrames s ++ [PresetAnimate tr]) /\
  (elapsed = 0 ->
   option_map Camera.position (cameraRef s') = Some (Transition.startPos tr)) /\
  (0 <= elapsed ->
   exists k, 0 <= k <= 1 /\
     option_map Camera.position (cameraRef s') =
     Some (Vector3.lerpVectors (Transition.startPos tr)
             (orbit (cameraControlsRef s)) k)).
Proof.
  intros Hc s' elapsed. split; [apply controls_presetAnimate |].
  split; [| split; [| split]]; intros He.
  - subst s'. rewrite (presetAnimate_finished tr now s camera Hc He).
    split; reflexivity.
  - now apply presetAnimate_pending with camera.
  - subst s'. unfold presetAnimate, Transition.duration. rewrite Hc.
    fold elapsed. rewrite He. replace (0 / 500) with 0 by lra.
    rewrite Rmin_left by lra.
    replace (1 - (1 - 0) ^ 3) with 0 by ring.
    rewrite lerp_from_start. now destruct (ltb 0 1).
  - subst s'. unfold presetAnimate, Transition.duration. rewrite Hc.
    fold elapsed. set (p := Rmin (elapsed / 500) 1).
    assert (Hp : 0 <= p <= 1).
    { unfold p, Rmin. destruct (Rle_dec (elapsed / 500) 1); lra. }
    exists (1 - (1 - p) ^ 3). split; [now apply eased_in_unit_interval |].
    now destruct (ltb p 1).
Qed.

(** X16.  A whole transition to the overview or the side preset: selecting
    it with no animation pending, then a frame at least 500 ms later, leaves
    the mode selected, the controls at the preset, the camera at the end of
    the interpolation (factor 1) from where it was to the preset's orbit
    position, and nothing pending.  (These are the presets whose target is
    the point (0, 5, 0) that the timer of the effect of lines 469-475 writes:
    a timer still pending from an earlier stay in follow mode changes nothing
    here.  For follow and close-up that timer can move the target.) *)
Theorem preset_transition_completes mode now0 now1 now2 s camera :
  mode = "overview"%string \/ mode = "side"%string ->
  cameraRef s = Some camera ->
  animationFrames s = [] ->
  0 <= now1 - now0 < 500 -> 500 <= now2 - now0 ->
  let s' := run s [CameraPreset mode now0 now1; AnimationFrame now2] in
  let controls := presetControls mode (cameraControlsRef s) in
  cameraMode s' = mode /\
  cameraControlsRef s' = controls /\
  cameraRef s' =
    Some (Camera.mk
            (Vector3.lerpVectors (Camera.position camera) (orbit controls) 1)
            (Controls.target controls)) /\
  animationFrames s' = [].
Proof.
  intros _ Hc Hq H1 H2 s' controls. subst s' controls.
  rewrite !run_cons. unfold run; cbn [fold_left].
  cbn [step]. unfold setCameraPreset.
  cbn [cameraRef setControls setCameraMode]. rewrite Hc.
  set (tr := Transition.mk (Camera.position camera) now0).
  set (s0 := setControls _ (setCameraMode mode s)).
  assert (Hc0 : cameraRef s0 = Some camera) by exact Hc.
  pose proof (presetAnimate_pending tr now1 s0 camera Hc0 (proj2 H1)) as Hq1.
  pose proof (controls_presetAnimate tr now1 s0) as Hk1.
  pose proof (cameraMode_presetAnimate tr now1 s0) as Hm1.
  destruct (presetAnimate_keeps_camera tr now1 s0 camera Hc0) as [c1 Hc1].
  set (s1 := presetAnimate tr now1 s0) in *.
  assert (Hq1' : animationFrames s1 = [PresetAnimate tr]).
  { rewrite Hq1. unfold s0; cbn. now rewrite Hq. }
  unfold animationFrame. rewrite Hq1'.
  set (s2 := setAnimationFrames [] s1).
  assert (Hc2 : cameraRef s2 = Some c1) by exact Hc1.
  rewrite (presetAnimate_finished tr now2 s2 c1 Hc2 H2).
  repeat split.
  - cbn. exact Hm1.
  - cbn. rewrite Hk1. reflexivity.
  - cbn. rewrite Hk1. reflexivity.
Qed.

(** ** The flight *)

Lemma lteb_true a b : lteb a b = true <-> a <= b.
Proof. unfold lteb; destruct (Rle_dec a b); split; intros; try easy. Qed.

Lemma flightsPending_app q1 q2 :
  flightsPending (q1 ++ q2) = (flightsPending q1 + flightsPending q2)%nat.
Proof.
  induction q1 as [| [f | tr] q1 IH]; cbn; [reflexivity | now rewrite IH | exact IH].
Qed.

(** A tick that finds the projectile on or above the ground and within the
    grace period: what it writes. *)
Lemma animate_airborne f now s projectile camera :
  ProjectileState.active (projectileStateRef s) = true ->
  projectileRef s = Some projectile ->
  cameraRef s = Some camera ->
  0 <= Point.y (positionAt f now) ->
  elapsedAt f now <= Flight.timeOfFlight f + 0.1 ->
  let s' := animate f now s in
  (isFiring s' = isFiring s /\ showPanel s' = showPanel s /\
   cannonAngle s' = cannonAngle s /\ initialVelocity s' = initialVelocity s /\
   cameraMode s' = cameraMode s /\ trajectoryLineRef s' = trajectoryLineRef s) /\
  projectileStateRef s' = projectileStateRef s /\
  projectileRef s' = Some (Mesh.mk (Mesh.visible projectile) (worldAt f now)) /\
  projectileData s' =
    ProjectileData.mk (ProjectileData.range (projectileData s))
      (ProjectileData.maxHeight (projectileData s))
      (ProjectileData.timeOfFlight (projectileData s))
      (toFixed (elapsedAt f now) 2)
      (toFixed (Vector3.x (worldAt f now)) 2,
       toFixed (Vector3.y (worldAt f now)) 2) /\
  animationFrames s' = animationFrames s ++ [FlightAnimate f] /\
  cameraRef s' <> None.
Proof.
  intros Hact Hp Hc Hy He s'. subst s'. unfold animate. rewrite Hact. cbn [negb].
  fold (elapsedAt f now). fold (positionAt f now).
  replace (ltb (Point.y (positionAt f now)) 0) with false
    by (symmetry; apply ltb_false; lra).
  replace (gtb (elapsedAt f now) (Flight.timeOfFlight f + 0.1)) with false
    by (symmetry; apply gtb_false; lra).
  cbn [orb]. rewrite Hp.
  destruct (Flight.cameraMode f =? "follow")%string; cbn; rewrite ?Hc; cbn;
    repeat split; discriminate.
Qed.

(** A tick that finds the projectile below the ground or the grace period
    over: what it writes. *)
Lemma animate_landing f now s projectile :
  ProjectileState.active (projectileStateRef s) = true ->
  projectileRef s = Some projectile ->
  Point.y (positionAt f now) < 0 \/
  elapsedAt f now > Flight.timeOfFlight f + 0.1 ->
  animate f now s =
  setShowPanel true
    (setIsFiring false
       (setProjectile (Some (Mesh.mk false (Mesh.position projectile)))
          (setProjectileState
             (ProjectileState.mk false
                (ProjectileState.time (projectileStateRef s))) s))).
Proof.
  intros Hact Hp Hl. unfold animate. rewrite Hact. cbn [negb].
  fold (elapsedAt f now). fold (positionAt f now).
  assert (Ht : ltb (Point.y (positionAt f now)) 0
               || gtb (elapsedAt f now) (Flight.timeOfFlight f + 0.1) = true).
  { apply orb_true_iff. destruct Hl as [H | H];
      [left; now apply ltb_true | right; now apply gtb_true]. }
  rewrite Ht. cbn [projectileRef setProjectileState]. now rewrite Hp.
Qed.

Lemma animate_inactive f now s :
  ProjectileState.active (projectileStateRef s) = false -> animate f now s = s.
Proof. intros H; unfold animate; now rewrite H. Qed.

(** *** At most one flight *)

Lemma animate_consistent f now s :
  cameraRef s <> None ->
  option_map Mesh.visible (projectileRef s) = Some true ->
  ProjectileState.active (projectileStateRef s) = true ->
  isFiring s = true ->
  flightsPending (animationFrames s) = 0%nat ->
  flightConsistent (animate f now s).
Proof.
  intros Hc Hv Hact Hf Hq.
  destruct (cameraRef s) as [camera |] eqn:Hcam; [| contradiction].
  destruct (projectileRef s) as [projectile |] eqn:Hp; [| discriminate].
  cbn in Hv. injection Hv as Hv.
  destruct (Rlt_dec (Point.y (positionAt f now)) 0) as [Hy | Hy];
    [| destruct (Rgt_dec (elapsedAt f now) (Flight.timeOfFlight f + 0.1))
        as [He | He]].
  - rewrite (animate_landing f now s projectile Hact Hp (or_introl Hy)).
    unfold flightConsistent; cbn. rewrite Hcam, Hq. repeat split. discriminate.
  - rewrite (animate_landing f now s projectile Hact Hp (or_intror He)).
    unfold flightConsistent; cbn. rewrite Hcam, Hq. repeat split. discriminate.
  - destruct (animate_airborne f now s projectile camera Hact Hp Hcam)
      as ((Hf' & _) & Hst & Hp' & _ & Hq' & Hc'); [lra | lra |].
    unfold flightConsistent.
    rewrite Hf', Hst, Hp', Hq', Hact, Hf, flightsPending_app, Hq, Hv.
    repeat split. exact Hc'.
Qed.

Lemma presetAnimate_consistent tr now s :
  flightConsistent s -> flightConsistent (presetAnimate tr now s).
Proof.
  unfold flightConsistent, presetAnimate. intros (Hc & Hv & Ha & Hq).
  destruct (cameraRef s) as [camera |] eqn:Hcam; [| contradiction].
  destruct (ltb _ 1); cbn; rewrite ?flightsPending_app, ?Hq; cbn;
    rewrite ?Nat.add_0_r; repeat split; try assumption; discriminate.
Qed.

Lemma updateCameraPosition_consistent s :
  flightConsistent s -> flightConsistent (updateCameraPosition s).
Proof.
  unfold flightConsistent, updateCameraPosition. intros (Hc & Hv & Ha & Hq).
  destruct (cameraRef s) as [camera |] eqn:Hcam; [| contradiction].
  cbn. repeat split; try assumption; discriminate.
Qed.

Lemma fireProjectile_consistent now0 now1 s :
  flightConsistent s -> flightConsistent (fireProjectile now0 now1 s).
Proof.
  intros H. pose proof H as (Hc & Hv & Ha & Hq).
  unfold fireProjectile. cbn [isFiring setShowPanel projectileRef].
  destruct (isFiring s) eqn:Hf; [exact H |].
  destruct (projectileRef s) as [projectile |] eqn:Hp; [| exact H].
  apply animate_consistent; cbn; try reflexivity; assumption.
Qed.

Lemma animationFrame_consistent now s :
  flightConsistent s -> flightConsistent (animationFrame now s).
Proof.
  intros H. pose proof H as (Hc & Hv & Ha & Hq).
  unfold animationFrame.
  destruct (animationFrames s) as [| [f | tr] rest] eqn:Hfr; [exact H | |].
  - cbn [flightsPending] in Hq.
    destruct (isFiring s) eqn:Hf; [| discriminate].
    injection Hq as Hq.
    apply animate_consistent; cbn; assumption.
  - apply presetAnimate_consistent.
    unfold flightConsistent; cbn. cbn [flightsPending] in Hq.
    repeat split; assumption.
Qed.

Lemma flightConsistent_step s e : flightConsistent s -> flightConsistent (step s e).
Proof.
  intros H; destruct e; cbn [step].
  - exact H.
  - unfold handleMouseMove. destruct (negb _); [exact H |].
    apply updateCameraPosition_consistent. exact H.
  - exact H.
  - unfold handleWheel. apply updateCameraPosition_consistent. exact H.
  - unfold setCameraPreset. cbn [cameraRef setControls setCameraMode].
    destruct (cameraRef s) eqn:Hcam; [| now destruct H].
    apply presetAnimate_consistent. exact H.
  - now apply fireProjectile_consistent.
  - exact H.
  - exact H.
  - now apply animationFrame_consistent.
Qed.

Lemma flightConsistent_initialState : flightConsistent initialState.
Proof. unfold flightConsistent; cbn. repeat split. discriminate. Qed.

(** X17.  At most one flight.  In every state reached from the initial state
    the projectile is shown, the flight is marked active and exactly one
    flight callback waits for a frame while [isFiring] holds; otherwise the
    projectile is hidden, nothing is active and no flight callback waits. *)
Theorem one_flight_at_most events :
  let s := run initialState events in
  option_map Mesh.visible (projectileRef s) = Some (isFiring s) /\
  ProjectileState.active (projectileStateRef s) = isFiring s /\
  flightsPending (animationFrames s) = (if isFiring s then 1 else 0)%nat.
Proof.
  assert (H : forall s, flightConsistent s -> flightConsistent (run s events)).
  { induction events as [| e events IH]; intros s H; [exact H |].
    apply IH, flightConsistent_step, H. }
  destruct (H _ flightConsistent_initialState) as (_ & Hv & Ha & Hq).
  cbn zeta. repeat split; assumption.
Qed.

(** *** The projectile on screen *)

Lemma animate_above_ground f now s :
  projectileAboveGround s -> projectileAboveGround (animate f now s).
Proof.
  unfold projectileAboveGround, animate. intros H.
  destruct (negb _); [exact H |].
  destruct (projectileRef s) as [projectile |] eqn:Hp.
  - destruct (ltb _ 0) eqn:Hy; cbn [orb].
    + cbn. rewrite ?Hp. cbn. exact H.
    + apply ltb_false in Hy.
      destruct (gtb _ _); [cbn; rewrite ?Hp; cbn; exact H |].
      cbn [orb]. destruct (Flight.cameraMode f =? "follow")%string;
        [cbn; destruct (cameraRef s) |]; cbn; exact Hy.
  - destruct (_ || _); cbn; rewrite ?Hp; cbn; rewrite ?Hp; exact I.
Qed.

Lemma projectileRef_presetAnimate tr now s :
  projectileRef (presetAnimate tr now s) = projectileRef s.
Proof. unfold presetAnimate; now break_tests. Qed.

Lemma projectileRef_updateCameraPosition s :
  projectileRef (updateCameraPosition s) = projectileRef s.
Proof. unfold updateCameraPosition; now break_tests. Qed.

Lemma projectileAboveGround_step s e :
  projectileAboveGround s -> projectileAboveGround (step s e).
Proof.
  intros H; destruct e; cbn [step].
  - exact H.
  - unfold handleMouseMove. destruct (negb _); [exact H |].
    unfold projectileAboveGround. now rewrite projectileRef_updateCameraPosition.
  - exact H.
  - unfold handleWheel, projectileAboveGround.
    now rewrite projectileRef_updateCameraPosition.
  - unfold setCameraPreset. cbn [cameraRef setControls setCameraMode].
    destruct (cameraRef s); [| exact H].
    unfold projectileAboveGround. now rewrite projectileRef_presetAnimate.
  - unfold fireProjectile. cbn [isFiring setShowPanel projectileRef].
    destruct (isFiring s); [exact H |].
    destruct (projectileRef s) as [projectile |] eqn:Hp;
      [| unfold projectileAboveGround; cbn; now rewrite Hp].
    apply animate_above_ground. unfold projectileAboveGround in *; cbn.
    now rewrite Hp in H.
  - exact H.
  - exact H.
  - unfold animationFrame.
    destruct (animationFrames s) as [| [f | tr] rest]; [exact H | |].
    + apply animate_above_ground. exact H.
    + unfold projectileAboveGround. now rewrite projectileRef_presetAnimate.
Qed.

(** X18.  The projectile is never drawn below the ground: in every state
    reached from the initial state the height of the mesh is not negative. *)
Theorem projectile_never_below_ground events :
  projectileAboveGround (run initialState events).
Proof.
  assert (H : forall s, projectileAboveGround s ->
                        projectileAboveGround (run s events)).
  { induction events as [| e events IH]; intros s H; [exact H |].
    apply IH, projectileAboveGround_step, H. }
  apply H. unfold projectileAboveGround; cbn. lra.
Qed.

(** X19.  The camera mode is captured at launch.  The ticks of a shot fired
    in another mode than follow never move the camera or its target, whatever
    state they run in: selecting follow during the flight does not make the
    camera track the projectile. *)
Theorem flight_keeps_launch_camera_mode s now0 now s2 :
  cameraMode s <> "follow"%string ->
  cameraControlsRef (animate (launch s now0) now s2) = cameraControlsRef s2 /\
  cameraRef (animate (launch s now0) now s2) = cameraRef s2.
Proof.
  intros Hm. apply String.eqb_neq in Hm.
  unfold animate. cbn [Flight.cameraMode launch]. rewrite Hm.
  split; break_tests; reflexivity.
Qed.

(** X20.  A tick of a shot fired in follow mode, while the projectile is in
    the air: the camera target is the projectile, rotation and zoom distance
    are unchanged, and the camera is at the orbit position computed from the
    new controls, looking at the projectile. *)
Theorem follow_tick_tracks_projectile f now s projectile camera :
  Flight.cameraMode f = "follow"%string ->
  ProjectileState.active (projectileStateRef s) = true ->
  projectileRef s = Some projectile ->
  cameraRef s = Some camera ->
  0 <= Point.y (positionAt f now) ->
  elapsedAt f now <= Flight.timeOfFlight f + 0.1 ->
  let s' := animate f now s in
  Controls.target (cameraControlsRef s') = worldAt f now /\
  Controls.rotation (cameraControlsRef s') =
    Controls.rotation (cameraControlsRef s) /\
  zoom s' = zoom s /\
  cameraOnOrbit s'.
Proof.
  intros Hm Hact Hp Hc Hy He s'. subst s'.
  split; [| split; [apply rotation_animate | split; [apply zoom_animate |]]].
  - unfold animate. rewrite Hact. cbn [negb].
    fold (elapsedAt f now). fold (positionAt f now).
    replace (ltb (Point.y (positionAt f now)) 0) with false
      by (symmetry; apply ltb_false; lra).
    replace (gtb (elapsedAt f now) (Flight.timeOfFlight f + 0.1)) with false
      by (symmetry; apply gtb_false; lra).
    cbn [orb]. rewrite Hp, Hm. cbn. rewrite Hc. reflexivity.
  - unfold cameraOnOrbit, animate. rewrite Hact. cbn [negb].
    fold (elapsedAt f now). fold (positionAt f now).
    replace (ltb (Point.y (positionAt f now)) 0) with false
      by (symmetry; apply ltb_false; lra).
    replace (gtb (elapsedAt f now) (Flight.timeOfFlight f + 0.1)) with false
      by (symmetry; apply gtb_false; lra).
    cbn [orb]. rewrite Hp, Hm. cbn. rewrite Hc. cbn.
    eexists; split; [reflexivity |]. cbn. split; reflexivity.
Qed.

(** *** From launch to landing *)

Lemma launch_height_nonneg s now0 :
  0 <= cannonAngle s <= 180 -> 0 <= Flight.y0 (launch s now0).
Proof.
  intros Ha. cbn. pose proof (sin_deg_nonneg _ Ha).
  unfold MOUNT_HEIGHT, BARREL_LENGTH; lra.
Qed.

(** A launched projectile is below the ground exactly after its flight
    time. *)
Lemma launch_below_ground_iff s now0 now :
  0 <= cannonAngle s <= 180 -> now0 <= now ->
  (Point.y (positionAt (launch s now0) now) < 0 <->
   Flight.timeOfFlight (launch s now0) < elapsedAt (launch s now0) now).
Proof.
  intros Ha Hn.
  destruct (height_signs (cannonAngle s) (initialVelocity s)
              (Flight.y0 (launch s now0)) (elapsedAt (launch s now0) now)
              (launch_height_nonneg s now0 Ha)) as (_ & Hin & Hout).
  assert (He : 0 <= elapsedAt (launch s now0) now)
    by (unfold elapsedAt; cbn; lra).
  split; [| exact Hout].
  intros Hneg.
  destruct (Rlt_dec (Flight.timeOfFlight (launch s now0))
              (elapsedAt (launch s now0) now)) as [H | H]; [exact H | exfalso].
  assert (0 <= Point.y (positionAt (launch s now0) now))
    by (apply Hin; split; [exact He | apply Rnot_lt_le; exact H]).
  lra.
Qed.

(** Fired from idle, [fireProjectile] arms the state and runs the first
    tick of the launched shot. *)
Lemma fire_from_idle_unfold s now0 now1 projectile :
  isFiring s = false ->
  projectileRef s = Some projectile ->
  fireProjectile now0 now1 s = animate (launch s now0) now1 (armed s projectile).
Proof.
  intros Hf Hp. unfold fireProjectile.
  cbn [isFiring setShowPanel projectileRef]. now rewrite Hf, Hp.
Qed.

Lemma landingTest_false f now :
  landingTest f now = false ->
  0 <= Point.y (positionAt f now) /\
  elapsedAt f now <= Flight.timeOfFlight f + 0.1.
Proof.
  unfold landingTest. intros H. apply orb_false_elim in H as [H1 H2].
  apply ltb_false in H1. apply gtb_false in H2. now split.
Qed.

Lemma landingTest_true f now :
  landingTest f now = true ->
  Point.y (positionAt f now) < 0 \/
  elapsedAt f now > Flight.timeOfFlight f + 0.1.
Proof.
  unfold landingTest. intros H. apply orb_true_iff in H as [H | H];
    [left; now apply ltb_true | right; now apply gtb_true].
Qed.

(** X21.  Firing from idle.  With the refs in place and a first tick whose
    landing test fails (as it does when the tick runs at once), the call
    closes the panel, shows the projectile on its trajectory, publishes
    range, maximal height and flight time (to two decimals) and requests
    exactly one animation callback, which carries the snapshot of the
    sliders and of the camera mode; the sliders themselves are untouched. *)
Theorem fire_from_idle_launches s now0 now1 projectile camera :
  isFiring s = false ->
  projectileRef s = Some projectile ->
  cameraRef s = Some camera ->
  landingTest (launch s now0) now1 = false ->
  let f := launch s now0 in
  let s' := fireProjectile now0 now1 s in
  isFiring s' = true /\
  showPanel s' = false /\
  projectileStateRef s' = ProjectileState.mk true 0 /\
  projectileRef s' = Some (Mesh.mk true (worldAt f now1)) /\
  projectileData s' =
    ProjectileData.mk
      (toFixed (calculateRange (cannonAngle s) (initialVelocity s)
                  (Flight.y0 f)) 2)
      (toFixed (calculateMaxHeight (cannonAngle s) (initialVelocity s)
                  (Flight.y0 f)) 2)
      (toFixed (Flight.timeOfFlight f) 2)
      (toFixed (elapsedAt f now1) 2)
      (toFixed (Vector3.x (worldAt f now1)) 2,
       toFixed (Vector3.y (worldAt f now1)) 2) /\
  animationFrames s' = animationFrames s ++ [FlightAnimate f] /\
  cannonAngle s' = cannonAngle s /\
  initialVelocity s' = initialVelocity s.
Proof.
  intros Hf Hp Hc Ht f s'. subst f s'.
  destruct (landingTest_false _ _ Ht) as [Hy He].
  rewrite (fire_from_idle_unfold s now0 now1 projectile Hf Hp).
  destruct (animate_airborne (launch s now0) now1 (armed s projectile)
              (Mesh.mk true (Mesh.position projectile)) camera
              eq_refl eq_refl Hc Hy He)
    as ((H1 & H2 & H3 & H4 & _) & H5 & H6 & H7 & H8 & _).
  cbv zeta in H1, H2, H3, H4, H5, H6, H7, H8.
  rewrite H1, H2, H3, H4, H5, H6, H7, H8.
  cbn. repeat split.
Qed.

(** X22.  A flight runs to completion.  Fire from idle with nothing pending
    and a first tick whose landing test fails, then a frame whose landing
    test holds (such as any frame more than the flight time plus 0.1 s after
    launch): the component is idle again, the panel is open, the projectile
    is hidden where it was last drawn, no callback is pending and the
    sliders are as they were. *)
Theorem flight_runs_to_completion s now0 now1 now2 projectile camera :
  isFiring s = false ->
  projectileRef s = Some projectile ->
  cameraRef s = Some camera ->
  animationFrames s = [] ->
  landingTest (launch s now0) now1 = false ->
  landingTest (launch s now0) now2 = true ->
  let f := launch s now0 in
  let s' := run s [Fire now0 now1; AnimationFrame now2] in
  isFiring s' = false /\
  showPanel s' = true /\
  ProjectileState.active (projectileStateRef s') = false /\
  projectileRef s' = Some (Mesh.mk false (worldAt f now1)) /\
  animationFrames s' = [] /\
  cannonAngle s' = cannonAngle s /\
  initialVelocity s' = initialVelocity s.
Proof.
  intros Hf Hp Hc Hq Ht1 Ht2 f s'. subst f s'.
  destruct (landingTest_false _ _ Ht1) as [Hy He].
  pose proof (landingTest_true _ _ Ht2) as Hland.
  rewrite !run_cons. unfold run; cbn [fold_left step].
  rewrite (fire_from_idle_unfold s now0 now1 projectile Hf Hp).
  destruct (animate_airborne (launch s now0) now1 (armed s projectile)
              (Mesh.mk true (Mesh.position projectile)) camera
              eq_refl eq_refl Hc Hy He)
    as ((H1 & H2 & H3 & H4 & _) & H5 & H6 & _ & H8 & _).
  cbv zeta in H1, H2, H3, H4, H5, H6, H8.
  set (s1 := animate (launch s now0) now1 (armed s projectile)) in *.
  unfold animationFrame. rewrite H8. cbn [armed animationFrames
    setProjectileState setProjectileData setProjectile setIsFiring setShowPanel].
  rewrite Hq. cbn [app].
  set (s2 := setAnimationFrames [] s1).
  rewrite (animate_landing (launch s now0) now2 s2
             (Mesh.mk true (worldAt (launch s now0) now1)));
    [| change (ProjectileState.active (projectileStateRef s1) = true);
       now rewrite H5
     | exact H6 | exact Hland].
  change (isFiring s1 = true) in H1. clearbody s1.
  cbn. rewrite H3, H4. repeat split.
Qed.

(** X23.  Read over the reals: for a launched shot the landing test of a
    tick is decided by the flight time alone, a tick ends the flight exactly
    when more than the flight time has elapsed, so the grace period of 0.1 s
    never decides.  (In binary64 a tick next to the flight time can fall on
    either side.) *)
Theorem launched_flight_ends_after_flight_time s now0 now s2 projectile camera :
  0 <= cannonAngle s <= 180 ->
  now0 <= now ->
  ProjectileState.active (projectileStateRef s2) = true ->
  projectileRef s2 = Some projectile ->
  cameraRef s2 = Some camera ->
  (flightEnded (animate (launch s now0) now s2) <->
   Flight.timeOfFlight (launch s now0) < elapsedAt (launch s now0) now).
Proof.
  intros Ha Hn Hact Hp Hc.
  pose proof (launch_below_ground_iff s now0 now Ha Hn) as Hiff.
  set (f := launch s now0) in *.
  split.
  - intros (Hend & _).
    destruct (Rlt_dec (Flight.timeOfFlight f) (elapsedAt f now)) as [H | H];
      [exact H | exfalso].
    assert (Hy : 0 <= Point.y (positionAt f now)).
    { destruct (Rlt_dec (Point.y (positionAt f now)) 0) as [Hneg | Hok]; [| lra].
      apply Hiff in Hneg. contradiction. }
    destruct (animate_airborne f now s2 projectile camera Hact Hp Hc Hy)
      as (_ & Hst & _); [lra |].
    cbn zeta in Hst. rewrite Hst, Hact in Hend. discriminate.
  - intros H. apply Hiff in H.
    rewrite (animate_landing f now s2 projectile Hact Hp (or_introl H)).
    unfold flightEnded; cbn. repeat split.
Qed.

(** ** The number inputs *)

Lemma animate_setCannonAngle f now angle s :
  animate f now (setCannonAngle angle s) = setCannonAngle angle (animate f now s).
Proof. unfold animate; cbn; break_tests; reflexivity. Qed.

Lemma animate_setInitialVelocity f now v0 s :
  animate f now (setInitialVelocity v0 s) =
  setInitialVelocity v0 (animate f now s).
Proof. unfold animate; cbn; break_tests; reflexivity. Qed.

(** X24.  The number inputs validate: whatever is typed (a number in or out
    of range, or something that does not parse), an angle in [15, 90] and a
    velocity in [10, 100] stay so, and each input leaves the other
    parameter alone. *)
Theorem number_inputs_keep_ranges s val :
  15 <= cannonAngle s <= 90 ->
  10 <= initialVelocity s <= 100 ->
  (15 <= cannonAngle (handleAngleNumberInput val s) <= 90 /\
   initialVelocity (handleAngleNumberInput val s) = initialVelocity s) /\
  (10 <= initialVelocity (handleVelocityNumberInput val s) <= 100 /\
   cannonAngle (handleVelocityNumberInput val s) = cannonAngle s).
Proof.
  intros Ha Hv.
  unfold handleAngleNumberInput, handleVelocityNumberInput.
  destruct val as [val |]; [| now repeat split].
  split.
  - destruct (geb val 15) eqn:H1; [| now split].
    destruct (lteb val 90) eqn:H2; [| now split].
    apply geb_true in H1. apply lteb_true in H2. cbn. split; [lra | reflexivity].
  - destruct (geb val 10) eqn:H1; [| now split].
    destruct (lteb val 100) eqn:H2; [| now split].
    apply geb_true in H1. apply lteb_true in H2. cbn. split; [lra | reflexivity].
Qed.

(** X25.  A flight works on its snapshot: editing the angle or the velocity
    before a tick or after it gives the same state, so an edit never
    changes where the projectile of a shot under way is drawn. *)
Theorem parameter_edits_do_not_disturb_flight f now val s :
  animate f now (handleAngleNumberInput val s) =
  handleAngleNumberInput val (animate f now s) /\
  animate f now (handleVelocityNumberInput val s) =
  handleVelocityNumberInput val (animate f now s).
Proof.
  unfold handleAngleNumberInput, handleVelocityNumberInput.
  destruct val as [val |]; [| now split].
  split.
  - destruct (_ && _); [apply animate_setCannonAngle | reflexivity].
  - destruct (_ && _); [apply animate_setInitialVelocity | reflexivity].
Qed.

(** * The fire button and the end of the preview *)

Lemma fireButton_firing now0 now1 s :
  isFiring s = true -> fireButton now0 now1 s = s.
Proof. intros H; unfold fireButton; now rewrite H. Qed.

Lemma fireButton_idle now0 now1 s :
  isFiring s = false -> fireButton now0 now1 s = fireProjectile now0 now1 s.
Proof. intros H; unfold fireButton; now rewrite H. Qed.

(** A call from idle that leaves the component firing has started exactly
    one flight. *)
Lemma fire_from_idle_one_flight now0 now1 s :
  isFiring s = false ->
  cameraRef s <> None ->
  isFiring (fireProjectile now0 now1 s) = true ->
  animationFrames (fireProjectile now0 now1 s) =
    animationFrames s ++ [FlightAnimate (launch s now0)] /\
  projectileStateRef (fireProjectile now0 now1 s) = ProjectileState.mk true 0.
Proof.
  intros Hf Hc H.
  destruct (cameraRef s) as [camera |] eqn:Hcam; [clear Hc | contradiction].
  destruct (projectileRef s) as [projectile |] eqn:Hp.
  - rewrite (fire_from_idle_unfold s now0 now1 projectile Hf Hp) in *.
    destruct (landingTest (launch s now0) now1) eqn:Ht.
    + apply landingTest_true in Ht.
      rewrite (animate_landing (launch s now0) now1 (armed s projectile)
                 (Mesh.mk true (Mesh.position projectile)) eq_refl eq_refl Ht)
        in H.
      discriminate H.
    + destruct (landingTest_false _ _ Ht) as [Hy He].
      destruct (animate_airborne (launch s now0) now1 (armed s projectile)
                  (Mesh.mk true (Mesh.position projectile)) camera
                  eq_refl eq_refl Hcam Hy He)
        as (_ & H5 & _ & _ & H8 & _).
      cbv zeta in H5, H8. rewrite H5, H8. split; reflexivity.
  - unfold fireProjectile in H. cbn [isFiring setShowPanel projectileRef] in H.
    rewrite Hf, Hp in H. cbn in H. congruence.
Qed.


(** Read over the reals, the sample taken at the flight time lies on the
    ground, so the test of line 387 keeps it. *)
Lemma final_sample_kept angle v0 :
  15 <= angle <= 90 ->
  geb (Vector3.y (previewSample angle v0 100)) 0 = true.
Proof.
  intros Ha. apply geb_true. unfold previewSample; cbn [Vector3.y].
  replace (INR 100 / INR 100 *
           calculateFlightTime angle v0
             (MOUNT_HEIGHT + BARREL_LENGTH * sin (angle * PI / 180)))
    with (calculateFlightTime angle v0
            (MOUNT_HEIGHT + BARREL_LENGTH * sin (angle * PI / 180)))
    by (field; apply not_0_INR; discriminate).
  rewrite flight_time_is_root;
    [lra | apply discriminant_nonneg, muzzle_height_nonneg, Ha].
Qed.


(** * What the code computes in binary64 *)

Module Binary64Facts.

Import PrimFloat.
Local Set Warnings "-inexact-float".

Lemma tableEngine_roundsCorrectly : Binary64.roundsCorrectly Binary64.tableEngine.
Proof. repeat split. Qed.

(** Put the values of the engine in and compute. *)
Ltac engine_compute H :=
  destruct H as (H90s & H90c & H45s & H45c);
  cbv beta zeta delta [Binary64.calculateTrajectory Binary64.calculateFlightTime
                       Binary64.calculateRange Binary64.calculateMaxHeight
                       Binary64.previewPoints];
  rewrite ?H90s, ?H90c, ?H45s, ?H45c; vm_compute.




(** In binary64 the preview need not end on the ground: at the default 45
    degrees and 20 m/s all 101 samples are kept and the last one has height
    7.1e-15, above 0; at 90 degrees and 11 m/s the sample at the flight time
    is dropped and the preview ends with sample 99, 0.37 m above the ground. *)
Lemma preview_ends_above_ground :
  (forall M, Binary64.roundsCorrectly M ->
     List.length (Binary64.previewPoints M 45 20) = 101%nat /\
     option_map (fun p => snd (fst p))
       (nth_error (Binary64.previewPoints M 45 20) 100)
     = Some 7.1054273576010019e-15%float /\
     List.length (Binary64.previewPoints M 90 11) = 100%nat /\
     option_map (fun p => snd (fst p))
       (nth_error (Binary64.previewPoints M 90 11) 99)
     = Some 0.37225549541279435%float) /\
  (0 <? 7.1054273576010019e-15)%float = true /\
  (0 <? 0.37225549541279435)%float = true.
Proof.
  split; [| split; reflexivity].
  intros M H. repeat split; engine_compute H; reflexivity.
Qed.


End Binary64Facts.

(** ** Instances of the further properties *)

Lemma default_flight_time_bounds now0 :
  0 <= Flight.timeOfFlight (launch (sceneSetup firstRender) now0) < 4.
Proof.
  cbn [Flight.timeOfFlight launch sceneSetup firstRender cannonAngle
       initialVelocity setCamera setProjectile setTrajectoryLine].
  split.
  - apply flight_time_nonneg_from_height.
    pose proof sqrt2_bounds. rewrite sin45. unfold MOUNT_HEIGHT, BARREL_LENGTH; lra.
  - unfold calculateFlightTime; cbn zeta. rewrite sin45.
    unfold MOUNT_HEIGHT, BARREL_LENGTH, GRAVITY.
    pose proof sqrt2_bounds as Hb.
    assert (H2 : sqrt 2 * sqrt 2 = 2) by (apply sqrt_sqrt; lra).
    set (q := sqrt 2) in *.
    set (d := 20 * (q / 2) * (20 * (q / 2)) + 2 * 9.81 * (1.5 + 3 * (q / 2))).
    assert (Hd : 0 < d < 289) by (unfold d; nra).
    assert (Hr0 : 0 <= sqrt d) by apply sqrt_pos.
    assert (Hr : sqrt d * sqrt d = d) by (apply sqrt_sqrt; lra).
    assert (Hrb : sqrt d < 17) by nra.
    destruct (ltb d 0) eqn:E; [lra |]. lra.
Qed.

Lemma default_first_tick_airborne :
  landingTest (launch (sceneSetup firstRender) 0) 0 = false.
Proof.
  pose proof (default_flight_time_bounds 0) as Hb.
  unfold landingTest. apply orb_false_intro.
  - apply ltb_false.
    assert (Ha : 0 <= cannonAngle (sceneSetup firstRender) <= 180)
      by (cbn; lra).
    pose proof (launch_height_nonneg (sceneSetup firstRender) 0 Ha) as Hy.
    unfold positionAt, elapsedAt, calculateTrajectory.
    cbn [Point.y Flight.startTime launch].
    replace ((0 - 0) / 1000) with 0 by lra.
    rewrite !Rmult_0_r. cbv zeta in Hy |- *. lra.
  - apply gtb_false. unfold elapsedAt.
    cbn [Flight.startTime launch].
    replace ((0 - 0) / 1000) with 0 by lra. lra.
Qed.

Lemma default_late_tick_lands :
  landingTest (launch (sceneSetup firstRender) 0) 5000 = true.
Proof.
  pose proof (default_flight_time_bounds 0) as Hb.
  unfold landingTest. apply orb_true_iff. right.
  apply gtb_true. unfold elapsedAt.
  cbn [Flight.startTime launch].
  replace ((5000 - 0) / 1000) with 5 by lra. lra.
Qed.

Lemma range_from_ground_closed_form_witness :
  (0 <= 30 <= 180 /\ 0 <= 20) /\
  calculateRange 30 20 0 = 20 * 20 * sin (2 * ((30 * PI) / 180)) / GRAVITY.
Proof.
  split; [lra |]. apply (range_from_ground_closed_form 30 20); lra.
Defined.

Lemma range_from_ground_maximal_at_45_witness :
  (0 <= 30 <= 180 /\ 0 <= 20) /\
  calculateRange 30 20 0 <= calculateRange 45 20 0.
Proof.
  split; [lra |]. apply (range_from_ground_maximal_at_45 30 20); lra.
Defined.

Lemma range_from_ground_complementary_witness :
  (0 <= 30 <= 90 /\ 0 <= 20) /\
  calculateRange (90 - 30) 20 0 = calculateRange 30 20 0.
Proof.
  split; [lra |]. apply (range_from_ground_complementary 30 20); lra.
Defined.

Lemma below_ground_iff_after_flight_time_witness :
  (0 <= 4.5 /\ 0 <= 2) /\
  (Point.y (calculateTrajectory 45 20 2 4.5) < 0 <->
   calculateFlightTime 45 20 4.5 < 2).
Proof.
  split; [lra |]. apply (below_ground_iff_after_flight_time 45 20 4.5 2); lra.
Defined.

Lemma flight_time_from_ground_twice_apex_witness :
  (0 <= 45 <= 180 /\ 0 <= 20) /\
  calculateFlightTime 45 20 0 = 2 * (20 * sin ((45 * PI) / 180) / GRAVITY).
Proof.
  split; [lra |]. apply (flight_time_from_ground_twice_apex 45 20); lra.
Defined.

Lemma flight_time_monotone_in_height_witness :
  (0 <= 0 /\ 0 <= 4.5) /\
  calculateFlightTime 45 20 0 <= calculateFlightTime 45 20 4.5.
Proof.
  split; [lra |]. apply (flight_time_monotone_in_height 45 20 0 4.5); lra.
Defined.

Lemma preview_keeps_every_sample_witness :
  0 <= 45 <= 180 /\ List.length (previewPoints 45 20) = 101%nat.
Proof.
  split; [lra |]. apply (preview_keeps_every_sample 45 20); lra.
Defined.

Lemma wheel_and_drag_keep_camera_on_orbit_witness :
  cameraRef exampleFlying =
    Some (Camera.mk (Vector3.mk 15 15 25) (Vector3.mk 0 5 0)) /\
  cameraOnOrbit (handleWheel 100 exampleFlying).
Proof.
  split; [reflexivity |].
  apply (wheel_and_drag_keep_camera_on_orbit exampleFlying _ eq_refl).
Defined.

Lemma preset_transition_frame_witness :
  cameraRef exampleFlying =
    Some (Camera.mk (Vector3.mk 15 15 25) (Vector3.mk 0 5 0)) /\
  cameraControlsRef
    (presetAnimate (Transition.mk (Vector3.mk 15 15 25) 0) 600 exampleFlying)
  = cameraControlsRef exampleFlying.
Proof.
  split; [reflexivity |].
  apply (preset_transition_frame (Transition.mk (Vector3.mk 15 15 25) 0) 600
           exampleFlying _ eq_refl).
Defined.

Lemma preset_transition_completes_witness :
  (("side"%string = "overview"%string \/ "side"%string = "side"%string) /\
   cameraRef (sceneSetup firstRender) =
     Some (Camera.mk (Vector3.mk 15 15 25) (Vector3.mk 0 5 0)) /\
   animationFrames (sceneSetup firstRender) = [] /\
   0 <= 0 - 0 < 500 /\ 500 <= 500 - 0) /\
  Controls.target
    (cameraControlsRef
       (run (sceneSetup firstRender)
          [CameraPreset "side" 0 0; AnimationFrame 500])) = Vector3.mk 0 5 0.
Proof.
  assert (Hm : "side"%string = "overview"%string \/ "side"%string = "side"%string)
    by (right; reflexivity).
  assert (H1 : 0 <= 0 - 0 < 500) by lra.
  assert (H2 : 500 <= 500 - 0) by lra.
  split; [repeat split; [exact Hm | lra ..] |].
  destruct (preset_transition_completes "side" 0 0 500 (sceneSetup firstRender) _
              Hm eq_refl eq_refl H1 H2) as (_ & Hctl & _).
  rewrite Hctl. reflexivity.
Defined.

Lemma flight_keeps_launch_camera_mode_witness :
  cameraMode exampleFlying <> "follow"%string /\
  cameraControlsRef
    (animate (launch exampleFlying 0) 1000
       (setCameraMode "follow" exampleFlying))
  = cameraControlsRef (setCameraMode "follow" exampleFlying).
Proof.
  assert (H : cameraMode exampleFlying <> "follow"%string)
    by (apply String.eqb_neq; reflexivity).
  split; [exact H |].
  apply (flight_keeps_launch_camera_mode exampleFlying 0 1000
           (setCameraMode "follow" exampleFlying) H).
Defined.

Lemma exampleFollowFlight_airborne :
  0 <= Point.y (positionAt exampleFollowFlight 0) /\
  elapsedAt exampleFollowFlight 0 <= Flight.timeOfFlight exampleFollowFlight + 0.1.
Proof.
  unfold positionAt, elapsedAt, calculateTrajectory, GRAVITY; cbn.
  replace ((0 - 0) / 1000) with 0 by lra.
  rewrite !Rmult_0_r. lra.
Qed.

Lemma follow_tick_tracks_projectile_witness :
  Flight.cameraMode exampleFollowFlight = "follow"%string /\
  Controls.target
    (cameraControlsRef (animate exampleFollowFlight 0 exampleFlying))
  = worldAt exampleFollowFlight 0.
Proof.
  split; [reflexivity |].
  apply (follow_tick_tracks_projectile exampleFollowFlight 0 exampleFlying _ _
           eq_refl eq_refl eq_refl eq_refl
           (proj1 exampleFollowFlight_airborne)
           (proj2 exampleFollowFlight_airborne)).
Defined.

Lemma fire_from_idle_launches_witness :
  (isFiring (sceneSetup firstRender) = false /\
   landingTest (launch (sceneSetup firstRender) 0) 0 = false) /\
  isFiring (fireProjectile 0 0 (sceneSetup firstRender)) = true.
Proof.
  split; [split; [reflexivity | exact default_first_tick_airborne] |].
  apply (fire_from_idle_launches (sceneSetup firstRender) 0 0 _ _
           eq_refl eq_refl eq_refl default_first_tick_airborne).
Defined.

Lemma flight_runs_to_completion_witness :
  (isFiring (sceneSetup firstRender) = false /\
   animationFrames (sceneSetup firstRender) = [] /\
   landingTest (launch (sceneSetup firstRender) 0) 0 = false /\
   landingTest (launch (sceneSetup firstRender) 0) 5000 = true) /\
  isFiring
    (run (sceneSetup firstRender) [Fire 0 0; AnimationFrame 5000]) = false.
Proof.
  split; [repeat split;
          [exact default_first_tick_airborne | exact default_late_tick_lands] |].
  apply (flight_runs_to_completion (sceneSetup firstRender) 0 0 5000 _ _
           eq_refl eq_refl eq_refl eq_refl
           default_first_tick_airborne default_late_tick_lands).
Defined.

Lemma launched_flight_ends_after_flight_time_witness :
  (0 <= cannonAngle (sceneSetup firstRender) <= 180 /\ 0 <= 4000 /\
   ProjectileState.active (projectileStateRef exampleFlying) = true) /\
  (flightEnded
     (animate (launch (sceneSetup firstRender) 0) 4000 exampleFlying) <->
   Flight.timeOfFlight (launch (sceneSetup firstRender) 0)
   < elapsedAt (launch (sceneSetup firstRender) 0) 4000).
Proof.
  assert (Ha : 0 <= cannonAngle (sceneSetup firstRender) <= 180) by (cbn; lra).
  assert (Hn : 0 <= 4000) by lra.
  split; [repeat split; [apply Ha | apply Ha | exact Hn] |].
  apply (launched_flight_ends_after_flight_time (sceneSetup firstRender) 0 4000
           exampleFlying _ _ Ha Hn eq_refl eq_refl eq_refl).
Defined.

Lemma number_inputs_keep_ranges_witness :
  (15 <= cannonAngle firstRender <= 90 /\
   10 <= initialVelocity firstRender <= 100) /\
  15 <= cannonAngle (handleAngleNumberInput (Some 95) firstRender) <= 90.
Proof.
  assert (Ha : 15 <= cannonAngle firstRender <= 90) by (cbn; lra).
  assert (Hv : 10 <= initialVelocity firstRender <= 100) by (cbn; lra).
  split; [split; assumption |].
  apply (number_inputs_keep_ranges firstRender (Some 95) Ha Hv).
Defined.


